(** * Vector indexers of the FlatBuffers Python runtime

    A shallow embedding of [python/flatbuffers/vectors.py]: the indexer
    classes [VectorIndexer], [StructVectorIndexer], [SimpleVectorIndexer],
    [StringVectorIndexer] and the iterator class [VectorIterator].

    Python integers are unbounded, hence [Z] (one integer type, as in
    Python 3).  Exceptions are values of [exn]; a call either returns or
    raises ([result]).  The only objects
    this module allocates are struct projections, kept in an object heap
    that is threaded through every call that may reach
    [StructVectorIndexer._unpack_index] (the monad [M]). *)

From stdpp Require Import gmap strings list pretty.

#[local] Open Scope Z_scope.

(** ** Exceptions and results *)

Inductive exn : Type :=
| IndexError (msg : string)
| TypeError (msg : string)
| NameError (msg : string)
| AttributeError (msg : string)
| ValueError (msg : string)
| NotImplementedError
| StopIteration
| AccessorError (msg : string).

Inductive result (A : Type) : Type :=
| Ok (a : A)
| Raise (e : exn).

Arguments Ok {A} a.
Arguments Raise {A} e.

#[global] Instance result_ret : MRet result := λ A a, Ok a.
#[global] Instance result_bind : MBind result := λ A B f r,
  match r with
  | Ok a => f a
  | Raise e => Raise e
  end.

(** ** Classes and [super] *)

Inductive py_class : Type :=
| object_cls
| VectorIndexer_cls
| StructVectorIndexer_cls
| SimpleVectorIndexer_cls
| StringVectorIndexer_cls
| VectorIterator_cls.

#[global] Instance py_class_eq_dec : EqDecision py_class.
Proof. solve_decision. Defined.

(** The method resolution order, read off the [class] statements: the three
    element-kind indexers derive from [VectorIndexer], everything derives
    from [object]. *)
Definition mro (c : py_class) : list py_class :=
  match c with
  | object_cls => [object_cls]
  | VectorIndexer_cls => [VectorIndexer_cls; object_cls]
  | StructVectorIndexer_cls =>
      [StructVectorIndexer_cls; VectorIndexer_cls; object_cls]
  | SimpleVectorIndexer_cls =>
      [SimpleVectorIndexer_cls; VectorIndexer_cls; object_cls]
  | StringVectorIndexer_cls =>
      [StringVectorIndexer_cls; VectorIndexer_cls; object_cls]
  | VectorIterator_cls => [VectorIterator_cls; object_cls]
  end.

Definition issubclass (c d : py_class) : bool := bool_decide (d ∈ mro c).

Fixpoint mro_after (c : py_class) (l : list py_class) : list py_class :=
  match l with
  | [] => []
  | d :: l' => if decide (c = d) then l' else mro_after c l'
  end.

(** [super(type, obj)]: [obj] has to be an instance of [type]; attribute
    lookup then starts behind [type] in the MRO of [obj]'s class.  The
    result is the class whose [__init__] a following [.__init__] finds
    (every class of this module's hierarchy that can come behind another
    one, [VectorIndexer] and [object], has an [__init__]). *)
Definition py_super (type obj_type : py_class) : result py_class :=
  if issubclass obj_type type then
    match mro_after type (mro obj_type) with
    | c :: _ => Ok c
    | [] => Raise (AttributeError "'super' object has no attribute '__init__'")
    end
  else
    Raise (TypeError "super(type, obj): obj must be an instance or subtype of type").

(** ** Name resolution

    A name that is neither a parameter nor assigned in a function body is
    compiled to a global load: module globals first, then builtins, else
    [NameError]. *)

(** Names bound at module level in [vectors.py]: its imports and class
    statements, and the attributes every module has. *)
Definition module_globals : list string :=
  [ "compat"; "N"; "np";
    "VectorIndexer"; "StructVectorIndexer"; "SimpleVectorIndexer";
    "StringVectorIndexer"; "VectorIterator";
    "__name__"; "__doc__"; "__package__"; "__loader__"; "__spec__";
    "__file__"; "__cached__"; "__builtins__" ]%string.

Definition builtin_names : list string :=
  [ "abs"; "all"; "any"; "ascii"; "bin"; "bool"; "breakpoint"; "bytearray";
    "bytes"; "callable"; "chr"; "classmethod"; "compile"; "complex";
    "delattr"; "dict"; "dir"; "divmod"; "enumerate"; "eval"; "exec";
    "filter"; "float"; "format"; "frozenset"; "getattr"; "globals";
    "hasattr"; "hash"; "help"; "hex"; "id"; "input"; "int"; "isinstance";
    "issubclass"; "iter"; "len"; "list"; "locals"; "map"; "max";
    "memoryview"; "min"; "next"; "object"; "oct"; "open"; "ord"; "pow";
    "print"; "property"; "range"; "repr"; "reversed"; "round"; "set";
    "setattr"; "slice"; "sorted"; "staticmethod"; "str"; "sum"; "super";
    "tuple"; "type"; "vars"; "zip"; "__import__";
    "None"; "True"; "False"; "Ellipsis"; "NotImplemented"; "__debug__";
    "BaseException"; "Exception"; "ArithmeticError"; "AssertionError";
    "AttributeError"; "EOFError"; "ImportError"; "IndexError"; "KeyError";
    "KeyboardInterrupt"; "LookupError"; "MemoryError"; "NameError";
    "NotImplementedError"; "OSError"; "OverflowError"; "RuntimeError";
    "StopIteration"; "SyntaxError"; "SystemExit"; "TypeError";
    "UnboundLocalError"; "ValueError"; "ZeroDivisionError" ]%string.

(** ** Values *)

(** A struct class is handed to [StructVectorIndexer] by generated code; it
    is identified by its name. *)
Definition struct_class : Type := string.

#[local] Set Warnings "-register-all".

Inductive value : Type :=
| VNone
| VBool (b : bool)
| VInt (z : Z)
| VFloat (mantissa exponent : Z)
| VStr (s : string)
| VTuple (l : list value)
| VList (l : list value)
| VSlice (start stop step : value)
| VStruct (ob_type : struct_class) (ref : positive)
| VGlobal (name : string)
| VBuiltin (name : string).

(** The builtin names that are bound to classes; the other names of
    [builtin_names] are bound to functions, apart from the constants below,
    [Ellipsis], [NotImplemented] and [help]. *)
Definition builtin_classes : list string :=
  [ "bool"; "bytearray"; "bytes"; "classmethod"; "complex"; "dict";
    "enumerate"; "filter"; "float"; "frozenset"; "int"; "list"; "map";
    "memoryview"; "object"; "property"; "range"; "reversed"; "set"; "slice";
    "staticmethod"; "str"; "super"; "tuple"; "type"; "zip";
    "BaseException"; "Exception"; "ArithmeticError"; "AssertionError";
    "AttributeError"; "EOFError"; "ImportError"; "IndexError"; "KeyError";
    "KeyboardInterrupt"; "LookupError"; "MemoryError"; "NameError";
    "NotImplementedError"; "OSError"; "OverflowError"; "RuntimeError";
    "StopIteration"; "SyntaxError"; "SystemExit"; "TypeError";
    "UnboundLocalError"; "ValueError"; "ZeroDivisionError" ]%string.

(** The builtin names bound to constants: [None], [True], [False], and
    [__debug__], which is [True] (the interpreter runs without [-O]). *)
Definition builtin_constant (name : string) : option value :=
  if bool_decide (name = "None"%string) then Some VNone
  else if bool_decide (name = "True"%string) then Some (VBool true)
  else if bool_decide (name = "False"%string) then Some (VBool false)
  else if bool_decide (name = "__debug__"%string) then Some (VBool true)
  else None.

(** The object a value stands for: a builtin constant reached through its
    name is the constant itself. *)
Definition canonical (v : value) : value :=
  match v with
  | VBuiltin n => default v (builtin_constant n)
  | _ => v
  end.

(** [type(v).__name__]. *)
Definition type_name (v : value) : string :=
  match canonical v with
  | VNone => "NoneType"
  | VBool _ => "bool"
  | VInt _ => "int"
  | VFloat _ _ => "float"
  | VStr _ => "str"
  | VTuple _ => "tuple"
  | VList _ => "list"
  | VSlice _ _ _ => "slice"
  | VStruct c _ => c
  | VGlobal n =>
      if bool_decide (n ∈ ["compat"; "N"; "np"]%string) then "module"
      else if bool_decide (n ∈ ["__name__"; "__doc__"; "__package__";
                               "__file__"; "__cached__"]%string) then "str"
      else if bool_decide (n = "__builtins__"%string) then "dict"
      else if bool_decide (n = "__loader__"%string) then "SourceFileLoader"
      else if bool_decide (n = "__spec__"%string) then "ModuleSpec"
      else "type"
  | VBuiltin n =>
      if bool_decide (n ∈ builtin_classes) then "type"
      else if bool_decide (n = "Ellipsis"%string) then "ellipsis"
      else if bool_decide (n = "NotImplemented"%string)
      then "NotImplementedType"
      else if bool_decide (n = "help"%string) then "_Helper"
      else "builtin_function_or_method"
  end.

Definition load_global (name : string) : result value :=
  if bool_decide (name ∈ module_globals) then Ok (VGlobal name)
  else if bool_decide (name ∈ builtin_names) then Ok (VBuiltin name)
  else Raise (NameError ("name '" +:+ name +:+ "' is not defined")).

(** [isinstance(index, int)]: [bool] is a subclass of [int]; a boolean takes
    part in comparisons, arithmetic and [%d] formatting with its integer
    value.  This holds as well for [True] and [False] reached through their
    builtin names. *)
Definition isinstance_int (v : value) : option Z :=
  match canonical v with
  | VInt z => Some z
  | VBool b => Some (Z.b2z b)
  | _ => None
  end.

Definition isinstance_slice (v : value) : bool :=
  match v with
  | VSlice _ _ _ => true
  | _ => false
  end.

(** [operator.index]: what [range] and [slice.indices] apply to their
    arguments. *)
Definition py_index (v : value) : result Z :=
  match isinstance_int v with
  | Some z => Ok z
  | None =>
      Raise (TypeError ("'" +:+ type_name v
                        +:+ "' object cannot be interpreted as an integer"))
  end.

(** The builtin [len]. *)
Definition py_len (v : value) : result Z :=
  match v with
  | VStr s => Ok (Z.of_nat (String.length s))
  | VTuple l | VList l => Ok (Z.of_nat (length l))
  | _ => Raise (TypeError ("object of type '" +:+ type_name v +:+ "' has no len()"))
  end.

(** ** Slices and ranges *)

(** [slice.indices(length)] for a slice [slice(start, stop, step)]: the
    normalised triple [(start, stop, step)]. *)
Definition slice_bound (v : value) : result (option Z) :=
  match canonical v with
  | VNone => Ok None
  | _ =>
      match isinstance_int v with
      | Some z => Ok (Some z)
      | None =>
          Raise (TypeError
            "slice indices must be integers or None or have an __index__ method")
      end
  end.

Definition clamp_bound (lower upper length : Z) (b : Z) : Z :=
  if b <? 0 then Z.max (b + length) lower else Z.min b upper.

Definition slice_indices (start stop step : value) (length : Z)
  : result (Z * Z * Z) :=
  if length <? 0 then Raise (ValueError "length should not be negative") else
  ostep ← slice_bound step;
  let step := default 1 ostep in
  if step =? 0 then Raise (ValueError "slice step cannot be zero") else
  let lower := if step <? 0 then -1 else 0 in
  let upper := if step <? 0 then length - 1 else length in
  ostart ← slice_bound start;
  let start :=
    match ostart with
    | None => if step <? 0 then upper else lower
    | Some b => clamp_bound lower upper length b
    end in
  ostop ← slice_bound stop;
  let stop :=
    match ostop with
    | None => if step <? 0 then lower else upper
    | Some b => clamp_bound lower upper length b
    end in
  Ok (start, stop, step).

(** The elements of [range(start, stop, step)] for [step <> 0]. *)
Definition range_len (start stop step : Z) : Z :=
  if 0 <? step then
    if start <? stop then (stop - start - 1) `div` step + 1 else 0
  else
    if stop <? start then (start - stop - 1) `div` (- step) + 1 else 0.

Definition range_list (start stop step : Z) : list Z :=
  (λ k : nat, start + Z.of_nat k * step) <$>
    seq 0 (Z.to_nat (range_len start stop step)).

(** The builtin [range], applied to its positional arguments. *)
Definition builtin_range (args : list value) : result (list Z) :=
  match args with
  | [] => Raise (TypeError "range expected at least 1 argument, got 0")
  | [stop] => stop ← py_index stop; Ok (range_list 0 stop 1)
  | [start; stop] =>
      start ← py_index start; stop ← py_index stop;
      Ok (range_list start stop 1)
  | [start; stop; step] =>
      start ← py_index start; stop ← py_index stop; step ← py_index step;
      if step =? 0 then Raise (ValueError "range() arg 3 must not be zero")
      else Ok (range_list start stop step)
  | _ =>
      Raise (TypeError ("range expected at most 3 arguments, got "
                        +:+ pretty (length args)))
  end.

(** ** The collaborators: table accessor, number types, compat *)

(** A [bytearray] object: its identity and its contents. *)
Record bytearray : Type := { buf_id : positive; buf_data : list Z }.

(** [N.*Flags]: only the byte width is consumed here. *)
Record Flags : Type := { bytewidth : Z }.

Module Table.

(** A [flatbuffers.Table]: the buffer it reads and its position in it. *)
Record t : Type := { Bytes : bytearray; Pos : Z }.

(** The accessor methods this module calls on a table.  [Get] receives its
    address argument as the value the caller's expression evaluates to. *)
Class methods : Type := {
  VectorLen : t → Z → result Z;
  Vector : t → Z → result Z;
  Get : t → Flags → value → result value;
  String : t → Z → result value
}.

End Table.

Module compat.

(** [compat.range_func], called with the positional arguments given. *)
Class t : Type := { range_func : list value → result (list Z) }.

End compat.

(** ** The object heap and the monad of heap-threading calls *)

(** A struct projection object: its class and, once [Init(buf, pos)] was
    called, the buffer object and the position it is anchored at. *)
Record struct_obj : Type := {
  so_class : struct_class;
  so_tab : option (bytearray * Z)
}.

Definition heap : Type := gmap positive struct_obj.

Definition M (A : Type) : Type := heap → result A * heap.

Definition ret {A} (a : A) : M A := λ h, (Ok a, h).

Definition raise {A} (e : exn) : M A := λ h, (Raise e, h).

Definition bind {A B} (m : M A) (k : A → M B) : M B := λ h,
  match m h with
  | (Ok a, h') => k a h'
  | (Raise e, h') => (Raise e, h')
  end.

Definition lift {A} (r : result A) : M A := λ h, (r, h).

Notation "'do' x <- m ; k" := (bind m (λ x, k))
  (at level 10, x name, m at level 100, k at level 200,
   format "'[v' 'do'  x  <-  m ; '/' k ']'").

(** A list comprehension [[f(i) for i in l]]: left to right, stopping at the
    first exception. *)
Fixpoint comprehension {A B} (f : A → M B) (l : list A) : M (list B) :=
  match l with
  | [] => ret []
  | i :: l' =>
      do x <- f i;
      do xs <- comprehension f l';
      ret (x :: xs)
  end.

(** Modelled from the spec: struct-projection construction, whose classes
    are generated code.  Calling the class allocates a new object; its
    [Init(buf, pos)] anchors the object at [pos] within the buffer object
    [buf], which is stored by reference. *)
Definition struct_new (c : struct_class) : M positive := λ h,
  let r := fresh (dom h) in
  (Ok r, <[r := {| so_class := c; so_tab := None |}]> h).

Definition struct_Init (r : positive) (buf : bytearray) (pos : Z) : M value :=
  λ h,
  match h !! r with
  | Some o => (Ok VNone, <[r := {| so_class := so_class o; so_tab := Some (buf, pos) |}]> h)
  | None => (Raise (AttributeError "'NoneType' object has no attribute 'Init'"), h)
  end.

(** [x] refers to a struct projection of class [c] that is not allocated in
    [h] and that, in [h'], is anchored at [pos] in the buffer object
    [buf]. *)
Definition projection_at (c : struct_class) (buf : bytearray) (pos : Z)
    (h h' : heap) (x : value) : Prop :=
  ∃ r, x = VStruct c r
       ∧ h !! r = None
       ∧ h' !! r = Some {| so_class := c; so_tab := Some (buf, pos) |}.

(** ** Instance layouts *)

(** [VectorIndexer.__slots__]. *)
Record slots : Type := {
  _table : Table.t;
  _offset : Z;
  _length : Z;
  _stride : Z
}.

(** The class of an indexer instance together with the slots its class
    adds: [StructVectorIndexer.__slots__] and
    [SimpleVectorIndexer.__slots__]. *)
Inductive derived_slots : Type :=
| VectorIndexer_obj
| StructVectorIndexer_obj (_struct_class : struct_class)
| SimpleVectorIndexer_obj (_flags : Flags)
| StringVectorIndexer_obj.

Record indexer : Type := {
  base :> slots;
  derived : derived_slots
}.

Definition ob_type (self : indexer) : py_class :=
  match derived self with
  | VectorIndexer_obj => VectorIndexer_cls
  | StructVectorIndexer_obj _ => StructVectorIndexer_cls
  | SimpleVectorIndexer_obj _ => SimpleVectorIndexer_cls
  | StringVectorIndexer_obj => StringVectorIndexer_cls
  end.

Module VectorIterator.

(** [VectorIterator.__slots__]. *)
Record t : Type := {
  _vec : indexer;
  _next_index : Z;
  _length : Z
}.

End VectorIterator.

Section Vectors.

Context `{!Table.methods} `{!compat.t}.

(** ** class VectorIndexer *)

(** [VectorIndexer.__init__(self, table, offset, stride)]: the four slots
    it assigns. *)
Definition VectorIndexer___init__ (table : Table.t) (offset stride : Z)
  : result slots :=
  length ← Table.VectorLen table offset;
  Ok {| _table := table; _offset := offset; _length := length;
        _stride := stride |}.

(** [super(type, self).__init__(table, offset, stride)] for [self] an
    instance of [self_type]. *)
Definition super___init__ (type self_type : py_class)
    (table : Table.t) (offset stride : Z) : result slots :=
  c ← py_super type self_type;
  match c with
  | VectorIndexer_cls => VectorIndexer___init__ table offset stride
  | _ =>
      Raise (TypeError
        "object.__init__() takes exactly one argument (the instance to initialize)")
  end.

Definition VectorIndexer___len__ (self : indexer) : Z := _length self.

Definition VectorIndexer__unpack_index (self : indexer) (index : Z)
  : M value :=
  raise NotImplementedError.

(** ** class StructVectorIndexer *)

Definition StructVectorIndexer___init__ (self_type : py_class)
    (table : Table.t) (offset stride : Z) (struct_class : struct_class)
  : result indexer :=
  b ← super___init__ StructVectorIndexer_cls self_type table offset stride;
  Ok {| base := b; derived := StructVectorIndexer_obj struct_class |}.

Definition StructVectorIndexer__unpack_index
    (self : indexer) (_struct_class : struct_class) (index : Z) : M value :=
  do v <- lift (Table.Vector (_table self) (_offset self));
  let a := v + index * _stride self in
  do item <- struct_new _struct_class;
  do _r <- struct_Init item (Table.Bytes (_table self)) a;
  ret (VStruct _struct_class item).

(** ** class SimpleVectorIndexer *)

Definition SimpleVectorIndexer___init__ (self_type : py_class)
    (table : Table.t) (offset : Z) (flags : Flags) : result indexer :=
  b ← super___init__ SimpleVectorIndexer_cls self_type table offset
        (bytewidth flags);
  Ok {| base := b; derived := SimpleVectorIndexer_obj flags |}.

(** The body computes [a] and then passes the name [offset], which is
    neither a parameter nor a local of this method. *)
Definition SimpleVectorIndexer__unpack_index
    (self : indexer) (_flags : Flags) (index : Z) : M value :=
  do v <- lift (Table.Vector (_table self) (_offset self));
  let a := v + index * _stride self in
  do offset <- lift (load_global "offset");
  lift (Table.Get (_table self) _flags offset).

(** The body is [pass]. *)
Definition SimpleVectorIndexer__unpack_slice_index
    (self : indexer) (index : value) : M value :=
  ret VNone.

(** ** class StringVectorIndexer *)

(** The first argument of [super] is [SimpleVectorIndexer]. *)
Definition StringVectorIndexer___init__ (self_type : py_class)
    (table : Table.t) (offset stride : Z) : result indexer :=
  b ← super___init__ SimpleVectorIndexer_cls self_type table offset stride;
  Ok {| base := b; derived := StringVectorIndexer_obj |}.

Definition StringVectorIndexer__unpack_index (self : indexer) (index : Z)
  : M value :=
  do v <- lift (Table.Vector (_table self) (_offset self));
  let a := v + index * _stride self in
  lift (Table.String (_table self) a).

(** ** Method dispatch and the inherited methods *)

(** [self._unpack_index(index)]. *)
Definition _unpack_index (self : indexer) (index : Z) : M value :=
  match derived self with
  | VectorIndexer_obj => VectorIndexer__unpack_index self index
  | StructVectorIndexer_obj c => StructVectorIndexer__unpack_index self c index
  | SimpleVectorIndexer_obj f => SimpleVectorIndexer__unpack_index self f index
  | StringVectorIndexer_obj => StringVectorIndexer__unpack_index self index
  end.

(** [VectorIndexer._unpack_slice_index(self, slice_index)]: the tuple that
    [slice_index.indices] returns is the one argument of
    [compat.range_func]. *)
Definition VectorIndexer__unpack_slice_index
    (self : indexer) (slice_index : value) : M value :=
  match slice_index with
  | VSlice start stop step =>
      do t <- lift (slice_indices start stop step (_length self));
      let '(i, j, k) := t in
      do r <- lift (compat.range_func [VTuple [VInt i; VInt j; VInt k]]);
      do l <- comprehension (_unpack_index self) r;
      ret (VList l)
  | _ =>
      raise (AttributeError ("'" +:+ type_name slice_index
                             +:+ "' object has no attribute 'indices'"))
  end.

(** [self._unpack_slice_index(index)]: only [SimpleVectorIndexer]
    overrides it. *)
Definition _unpack_slice_index (self : indexer) (index : value) : M value :=
  match derived self with
  | SimpleVectorIndexer_obj _ =>
      SimpleVectorIndexer__unpack_slice_index self index
  | _ => VectorIndexer__unpack_slice_index self index
  end.

Definition VectorIndexer___getitem__ (self : indexer) (index : value)
  : M value :=
  match isinstance_int index with
  | Some i =>
      if (i <? 0) || (i >=? _length self) then
        raise (IndexError ("vector index " +:+ pretty i +:+ " out of range"))
      else _unpack_index self i
  | None =>
      if isinstance_slice index then _unpack_slice_index self index
      else
        raise (TypeError ("vector indices must be integers or slices, not "
                          +:+ type_name index))
  end.

(** ** class VectorIterator *)

(** [VectorIterator.__init__(self, vector_Indexer)]: the parameter is
    [vector_Indexer]; [vector] in the last assignment is a global load. *)
Definition VectorIterator___init__ (vector_Indexer : indexer)
  : result VectorIterator.t :=
  let _vec := vector_Indexer in
  let _next_index := 0 in
  vector ← load_global "vector";
  _length ← py_len vector;
  Ok {| VectorIterator._vec := _vec;
        VectorIterator._next_index := _next_index;
        VectorIterator._length := _length |}.

Definition VectorIterator___iter__ (self : VectorIterator.t)
  : VectorIterator.t := self.

(** [VectorIterator.next(self)]: the item and the iterator with its
    cursor advanced; an exception leaves the iterator as it was. *)
Definition VectorIterator_next (self : VectorIterator.t)
  : M (value * VectorIterator.t) :=
  if VectorIterator._next_index self >=? VectorIterator._length self then
    raise StopIteration
  else
    do item <- VectorIndexer___getitem__ (VectorIterator._vec self)
                 (VInt (VectorIterator._next_index self));
    ret (item,
         {| VectorIterator._vec := VectorIterator._vec self;
            VectorIterator._next_index := VectorIterator._next_index self + 1;
            VectorIterator._length := VectorIterator._length self |}).

(** [VectorIndexer.__iter__(self)]. *)
Definition VectorIndexer___iter__ (self : indexer)
  : result VectorIterator.t :=
  VectorIterator___init__ self.

(** ** Calling the classes *)

(** [VectorIndexer(table, offset, stride)] and the like: a new instance of
    the class called, initialised by that class's [__init__]. *)
Definition new_VectorIndexer (table : Table.t) (offset stride : Z)
  : result indexer :=
  b ← VectorIndexer___init__ table offset stride;
  Ok {| base := b; derived := VectorIndexer_obj |}.

Definition new_StructVectorIndexer (table : Table.t) (offset stride : Z)
    (struct_class : struct_class) : result indexer :=
  StructVectorIndexer___init__ StructVectorIndexer_cls
    table offset stride struct_class.

Definition new_SimpleVectorIndexer (table : Table.t) (offset : Z)
    (flags : Flags) : result indexer :=
  SimpleVectorIndexer___init__ SimpleVectorIndexer_cls table offset flags.

Definition new_StringVectorIndexer (table : Table.t) (offset stride : Z)
  : result indexer :=
  StringVectorIndexer___init__ StringVectorIndexer_cls table offset stride.

(** A view is constructed when one of the class calls returned it. *)
Definition constructed (v : indexer) : Prop :=
  (∃ table offset stride, new_VectorIndexer table offset stride = Ok v)
  ∨ (∃ table offset stride c,
       new_StructVectorIndexer table offset stride c = Ok v)
  ∨ (∃ table offset flags, new_SimpleVectorIndexer table offset flags = Ok v)
  ∨ (∃ table offset stride,
       new_StringVectorIndexer table offset stride = Ok v).

(** ** Driving an iterator *)

Definition remaining (it : VectorIterator.t) : nat :=
  Z.to_nat (VectorIterator._length it - VectorIterator._next_index it).

(** Advance until [StopIteration], collecting the items; any other
    exception ends the traversal.  [n] bounds the number of advances. *)
Fixpoint drain (n : nat) (it : VectorIterator.t) : M (list value) := λ h,
  match n with
  | O => (Ok [], h)
  | S n' =>
      match VectorIterator_next it h with
      | (Ok (x, it'), h') =>
          match drain n' it' h' with
          | (Ok xs, h'') => (Ok (x :: xs), h'')
          | (Raise e, h'') => (Raise e, h'')
          end
      | (Raise StopIteration, h') => (Ok [], h')
      | (Raise e, h') => (Raise e, h')
      end
  end.

(** [list(self)], or a [for] loop over [self]: a fresh iterator from
    [__iter__], advanced to its end.  An iterator takes at most
    [remaining] successful advances and one more that ends it. *)
Definition iterate (self : indexer) : M (list value) :=
  do it <- lift (VectorIndexer___iter__ self);
  drain (S (remaining it)) it.

End Vectors.

(** ** A table accessor over little-endian buffers *)

Module Sample.

Definition read_byte (data : list Z) (a : Z) : result Z :=
  if a <? 0 then Raise (AccessorError "offset out of range")
  else
    match data !! Z.to_nat a with
    | Some b => Ok b
    | None => Raise (AccessorError "buffer too small")
    end.

Fixpoint read_le (data : list Z) (a : Z) (width : nat) : result Z :=
  match width with
  | O => Ok 0
  | S w =>
      b ← read_byte data a;
      r ← read_le data (a + 1) w;
      Ok (b + 256 * r)
  end.

Definition read_uint32 (buf : bytearray) (a : Z) : result Z :=
  read_le (buf_data buf) a 4.

Fixpoint read_bytes (data : list Z) (a : Z) (n : nat) : result (list Z) :=
  match n with
  | O => Ok []
  | S n' =>
      b ← read_byte data a;
      r ← read_bytes data (a + 1) n';
      Ok (b :: r)
  end.

Definition decode (bytes : list Z) : string :=
  foldr (λ b s, String (Ascii.ascii_of_nat (Z.to_nat b)) s) EmptyString bytes.

(** Modelled from the spec: the table accessor, whose class is defined in
    another module of the package.  A vector field holds a 32-bit offset
    to the vector; the vector is its 32-bit length prefix followed by the
    elements; a string slot holds a 32-bit offset to a length-prefixed
    string record. *)
Definition VectorLen (t : Table.t) (off : Z) : result Z :=
  let off := off + Table.Pos t in
  d ← read_uint32 (Table.Bytes t) off;
  read_uint32 (Table.Bytes t) (off + d).

Definition Vector (t : Table.t) (off : Z) : result Z :=
  let off := off + Table.Pos t in
  d ← read_uint32 (Table.Bytes t) off;
  Ok (off + d + 4).

Definition Get (t : Table.t) (flags : Flags) (off : value) : result value :=
  a ← py_index off;
  n ← read_le (buf_data (Table.Bytes t)) a (Z.to_nat (bytewidth flags));
  Ok (VInt n).

Definition String (t : Table.t) (off : Z) : result value :=
  d ← read_uint32 (Table.Bytes t) off;
  n ← read_uint32 (Table.Bytes t) (off + d);
  bytes ← read_bytes (buf_data (Table.Bytes t)) (off + d + 4) (Z.to_nat n);
  Ok (VStr (decode bytes)).

Definition accessor : Table.methods :=
  {| Table.VectorLen := VectorLen; Table.Vector := Vector;
     Table.Get := Get; Table.String := String |}.

(** [compat.range_func] bound to the builtin [range]. *)
Definition compat_range : compat.t := {| compat.range_func := builtin_range |}.

Definition Int32Flags : Flags := {| bytewidth := 4 |}.

(** A table whose field at offset 0 is the vector [10, 20, 30] of 32-bit
    integers. *)
Definition ints_table : Table.t :=
  {| Table.Bytes :=
       {| buf_id := 1%positive;
          buf_data := [4;0;0;0; 3;0;0;0; 10;0;0;0; 20;0;0;0; 30;0;0;0] |};
     Table.Pos := 0 |}.

(** A table whose field at offset 0 is an empty vector. *)
Definition empty_table : Table.t :=
  {| Table.Bytes :=
       {| buf_id := 2%positive; buf_data := [4;0;0;0; 0;0;0;0] |};
     Table.Pos := 0 |}.

(** A table whose field at offset 0 is a vector of two 8-byte structs. *)
Definition structs_table : Table.t :=
  {| Table.Bytes :=
       {| buf_id := 3%positive;
          buf_data := [4;0;0;0; 2;0;0;0;
                       1;0;0;0; 2;0;0;0;  3;0;0;0; 4;0;0;0] |};
     Table.Pos := 0 |}.

(** A table whose field at offset 0 is the vector of the strings "ab" and
    "xyz". *)
Definition strings_table : Table.t :=
  {| Table.Bytes :=
       {| buf_id := 4%positive;
          buf_data := [4;0;0;0; 2;0;0;0;
                       8;0;0;0; 12;0;0;0;
                       2;0;0;0; 97;98;0;0;
                       3;0;0;0; 120;121;122;0] |};
     Table.Pos := 0 |}.

(** The views over these tables, as the class calls return them. *)
Definition ints : indexer :=
  {| base := {| _table := ints_table; _offset := 0; _length := 3;
                _stride := 4 |};
     derived := SimpleVectorIndexer_obj Int32Flags |}.

Definition empty : indexer :=
  {| base := {| _table := empty_table; _offset := 0; _length := 0;
                _stride := 4 |};
     derived := SimpleVectorIndexer_obj Int32Flags |}.

Definition structs : indexer :=
  {| base := {| _table := structs_table; _offset := 0; _length := 2;
                _stride := 8 |};
     derived := StructVectorIndexer_obj "Vec2" |}.

Definition strings : indexer :=
  {| base := {| _table := strings_table; _offset := 0; _length := 2;
                _stride := 4 |};
     derived := StringVectorIndexer_obj |}.

(** An instance of the base class itself, over the struct table. *)
Definition plain : indexer :=
  {| base := {| _table := structs_table; _offset := 0; _length := 2;
                _stride := 8 |};
     derived := VectorIndexer_obj |}.

(** An iterator state over the struct view: cursor 0, the view's length. *)
Definition structs_iterator : VectorIterator.t :=
  {| VectorIterator._vec := structs;
     VectorIterator._next_index := 0;
     VectorIterator._length := 2 |}.

(** A struct view whose buffer holds no vector any more. *)
Definition truncated : indexer :=
  {| base := {| _table := {| Table.Bytes := {| buf_id := 5%positive;
                                                buf_data := [] |};
                             Table.Pos := 0 |};
                _offset := 0; _length := 2; _stride := 8 |};
     derived := StructVectorIndexer_obj "Vec2" |}.

(** A [range_func] that takes a tuple of indices as the arguments of
    [range]. *)
Definition compat_unpacking : compat.t :=
  {| compat.range_func := λ args,
       match args with
       | [VTuple l] => builtin_range l
       | _ => builtin_range args
       end |}.

End Sample.

(** * Properties *)

(** ** The runtime fragment *)

Lemma load_global_offset :
  load_global "offset" = Raise (NameError "name 'offset' is not defined").
Proof. reflexivity. Qed.

Lemma load_global_vector :
  load_global "vector" = Raise (NameError "name 'vector' is not defined").
Proof. reflexivity. Qed.

(** [super] accepts an instance of the class itself or of a subclass, and
    nothing else. *)
Lemma py_super_own_class (c : py_class) :
  c ∈ [StructVectorIndexer_cls; SimpleVectorIndexer_cls; StringVectorIndexer_cls] →
  py_super c c = Ok VectorIndexer_cls.
Proof.
  intros Hc. repeat (apply elem_of_cons in Hc as [-> | Hc]; [reflexivity |]).
  by apply elem_of_nil in Hc.
Qed.

Lemma py_super_sibling :
  py_super SimpleVectorIndexer_cls StringVectorIndexer_cls
  = Raise (TypeError "super(type, obj): obj must be an instance or subtype of type").
Proof. reflexivity. Qed.

Lemma isinstance_int_bool (b : bool) :
  isinstance_int (VBool b) = isinstance_int (VInt (Z.b2z b)).
Proof. reflexivity. Qed.

(** A builtin constant reached through its name is served as the constant:
    [True] and [False] are integers, [None] is not; a builtin class is of
    type [type]. *)
Lemma isinstance_int_builtin_constant :
  load_global "True" = Ok (VBuiltin "True")
  ∧ isinstance_int (VBuiltin "True") = isinstance_int (VBool true)
  ∧ isinstance_int (VBuiltin "False") = isinstance_int (VBool false)
  ∧ isinstance_int (VBuiltin "None") = isinstance_int VNone
  ∧ isinstance_int (VBuiltin "int") = None.
Proof. repeat split. Qed.

Lemma type_name_builtin :
  type_name (VBuiltin "True") = "bool"
  ∧ type_name (VBuiltin "None") = "NoneType"
  ∧ type_name (VBuiltin "int") = "type"
  ∧ type_name (VBuiltin "IndexError") = "type"
  ∧ type_name (VBuiltin "len") = "builtin_function_or_method"
  ∧ type_name (VBuiltin "Ellipsis") = "ellipsis".
Proof. repeat split. Qed.

Lemma canonical_idemp (v : value) : canonical (canonical v) = canonical v.
Proof.
  destruct v as [| | | | | | | | | | n]; try reflexivity.
  cbn. destruct (builtin_constant n) as [c |] eqn:Hc; cbn.
  - unfold builtin_constant in Hc.
    repeat case_bool_decide; by simplify_eq.
  - by rewrite Hc.
Qed.

(** [isinstance_int] and [type_name] see a value only through the object it
    stands for. *)
Lemma isinstance_int_canonical (v : value) :
  isinstance_int (canonical v) = isinstance_int v.
Proof. unfold isinstance_int. by rewrite canonical_idemp. Qed.

Lemma type_name_canonical (v : value) :
  type_name (canonical v) = type_name v.
Proof. unfold type_name. by rewrite canonical_idemp. Qed.

Lemma builtin_classes_bound (n : string) :
  n ∈ builtin_classes → n ∈ builtin_names ∧ builtin_constant n = None.
Proof.
  intros Hn.
  assert (forallb
            (λ m, bool_decide (m ∈ builtin_names)
                  && match builtin_constant m with
                     | None => true
                     | Some _ => false
                     end)
            builtin_classes = true) as Hall by reflexivity.
  rewrite forallb_forall in Hall.
  apply list_elem_of_In in Hn. apply Hall in Hn.
  apply andb_prop in Hn as [Hb Hc]. split.
  - by apply bool_decide_eq_true in Hb.
  - by destruct (builtin_constant n).
Qed.

Lemma isinstance_int_not_slice (v : value) (z : Z) :
  isinstance_int v = Some z → isinstance_slice v = false.
Proof. by destruct v. Qed.

(** [slice.indices] with the full bounds of a sequence of [n] elements. *)
Lemma slice_indices_full (n : Z) :
  0 ≤ n → slice_indices (VInt 0) (VInt n) (VInt 1) n = Ok (0, n, 1).
Proof.
  intros Hn. unfold slice_indices.
  destruct (Z.ltb_spec n 0) as [? | _]; [lia |]. cbn.
  unfold clamp_bound. cbn.
  destruct (Z.ltb_spec n 0) as [? | _]; [lia |].
  rewrite Z.min_id, Z.min_l by lia. reflexivity.
Qed.

Lemma range_len_unit (n : Z) : 0 ≤ n → range_len 0 n 1 = n.
Proof.
  intros Hn. unfold range_len. cbn.
  destruct (Z.ltb_spec 0 n); [| lia].
  rewrite Z.div_1_r. lia.
Qed.

(** The builtin [range] refuses a tuple as its one argument. *)
Lemma builtin_range_tuple (l : list value) :
  builtin_range [VTuple l]
  = Raise (TypeError "'tuple' object cannot be interpreted as an integer").
Proof. reflexivity. Qed.

(** ** The monad *)

Lemma comprehension_nil {A B} (f : A → M B) (h : heap) :
  comprehension f [] h = (Ok [], h).
Proof. reflexivity. Qed.

(** A comprehension produces one item per element of its source. *)
Lemma comprehension_length {A B} (f : A → M B) (l : list A) (h h' : heap)
    (xs : list B) :
  comprehension f l h = (Ok xs, h') → length xs = length l.
Proof.
  revert h xs. induction l as [| i l IH]; intros h xs; cbn.
  - by intros [= <- _].
  - unfold bind at 1. destruct (f i h) as [[x | e] h1]; [| done].
    unfold bind at 1.
    destruct (comprehension f l h1) as [[ys | e] h2] eqn:Hl; [| done].
    intros [= <- <-]. cbn. f_equal. by eapply IH.
Qed.

(** A comprehension over a function that always raises returns only for the
    empty source. *)
Lemma comprehension_raises {A B} (f : A → M B) (l : list A) (h : heap) :
  (∀ i h0, ∃ e, f i h0 = (Raise e, h0)) →
  l ≠ [] → ∃ e, comprehension f l h = (Raise e, h).
Proof.
  intros Hf Hl. destruct l as [| i l]; [done |].
  destruct (Hf i h) as [e He]. exists e. cbn. unfold bind. by rewrite He.
Qed.

Section Properties.

Context `{!Table.methods} `{!compat.t}.

Implicit Types (self : indexer) (b : slots) (h : heap) (i : Z).

(** ** Construction *)

(** The base constructor reads the length once, through the table's
    [VectorLen], and stores its three arguments. *)
Lemma VectorIndexer___init___Ok (table : Table.t) (offset stride : Z) b :
  VectorIndexer___init__ table offset stride = Ok b →
  _table b = table ∧ _offset b = offset ∧ _stride b = stride
  ∧ Table.VectorLen table offset = Ok (_length b).
Proof.
  unfold VectorIndexer___init__. cbn.
  destruct (Table.VectorLen table offset) as [n | e]; cbn; [| done].
  by intros [= <-].
Qed.

Lemma new_StructVectorIndexer_eq (table : Table.t) (offset stride : Z)
    (c : struct_class) :
  new_StructVectorIndexer table offset stride c
  = (b ← VectorIndexer___init__ table offset stride;
     Ok {| base := b; derived := StructVectorIndexer_obj c |}).
Proof. reflexivity. Qed.

Lemma new_SimpleVectorIndexer_eq (table : Table.t) (offset : Z)
    (flags : Flags) :
  new_SimpleVectorIndexer table offset flags
  = (b ← VectorIndexer___init__ table offset (bytewidth flags);
     Ok {| base := b; derived := SimpleVectorIndexer_obj flags |}).
Proof. reflexivity. Qed.

(** C4 (the code departs from it).  Calling [StringVectorIndexer] never
    yields a view: its [__init__] hands [SimpleVectorIndexer] to [super],
    of which the new instance is no instance, so [super] raises
    [TypeError] before the base initialisation and before the table is
    consulted. *)
Theorem new_StringVectorIndexer_raises_TypeError
    (table : Table.t) (offset stride : Z) :
  new_StringVectorIndexer table offset stride
  = Raise (TypeError
      "super(type, obj): obj must be an instance or subtype of type").
Proof. reflexivity. Qed.

(** The class of a constructed view is the class that was called. *)
Lemma new_StructVectorIndexer_ob_type (table : Table.t) (offset stride : Z)
    (c : struct_class) self :
  new_StructVectorIndexer table offset stride c = Ok self →
  ob_type self = StructVectorIndexer_cls.
Proof.
  rewrite new_StructVectorIndexer_eq. cbn.
  destruct (VectorIndexer___init__ table offset stride); [| done].
  by intros [= <-].
Qed.

Lemma new_SimpleVectorIndexer_ob_type (table : Table.t) (offset : Z)
    (flags : Flags) self :
  new_SimpleVectorIndexer table offset flags = Ok self →
  ob_type self = SimpleVectorIndexer_cls ∧ _stride self = bytewidth flags.
Proof.
  rewrite new_SimpleVectorIndexer_eq. cbn.
  destruct (VectorIndexer___init__ table offset (bytewidth flags)) as [b |]
    eqn:Hb; [| done].
  intros [= <-]. split; [done |]. cbn.
  by destruct (VectorIndexer___init___Ok _ _ _ _ Hb) as (_ & _ & -> & _).
Qed.

Lemma constructed_length self :
  constructed self →
  Table.VectorLen (_table self) (_offset self) = Ok (_length self).
Proof.
  intros [(t & o & s & Hc) | [(t & o & s & c & Hc) | [(t & o & f & Hc) | (t & o & s & Hc)]]].
  - unfold new_VectorIndexer in Hc. cbn in Hc.
    destruct (VectorIndexer___init__ t o s) as [b |] eqn:Hb; [| done].
    injection Hc as <-. cbn.
    by destruct (VectorIndexer___init___Ok _ _ _ _ Hb) as (-> & -> & _ & ->).
  - rewrite new_StructVectorIndexer_eq in Hc. cbn in Hc.
    destruct (VectorIndexer___init__ t o s) as [b |] eqn:Hb; [| done].
    injection Hc as <-. cbn.
    by destruct (VectorIndexer___init___Ok _ _ _ _ Hb) as (-> & -> & _ & ->).
  - rewrite new_SimpleVectorIndexer_eq in Hc. cbn in Hc.
    destruct (VectorIndexer___init__ t o (bytewidth f)) as [b |] eqn:Hb;
      [| done].
    injection Hc as <-. cbn.
    by destruct (VectorIndexer___init___Ok _ _ _ _ Hb) as (-> & -> & _ & ->).
  - discriminate Hc.
Qed.

Lemma constructed_not_StringVectorIndexer self :
  constructed self → derived self ≠ StringVectorIndexer_obj.
Proof.
  intros [(t & o & s & Hc) | [(t & o & s & c & Hc) | [(t & o & f & Hc) | (t & o & s & Hc)]]].
  - unfold new_VectorIndexer in Hc. cbn in Hc.
    destruct (VectorIndexer___init__ t o s); [| done]. by injection Hc as <-.
  - rewrite new_StructVectorIndexer_eq in Hc. cbn in Hc.
    destruct (VectorIndexer___init__ t o s); [| done]. by injection Hc as <-.
  - rewrite new_SimpleVectorIndexer_eq in Hc. cbn in Hc.
    destruct (VectorIndexer___init__ t o (bytewidth f)); [| done].
    by injection Hc as <-.
  - discriminate Hc.
Qed.

(** ** Unpacking one element *)

Lemma SimpleVectorIndexer__unpack_index_eq self (fl : Flags) i h :
  SimpleVectorIndexer__unpack_index self fl i h
  = match Table.Vector (_table self) (_offset self) with
    | Ok _ => (Raise (NameError "name 'offset' is not defined"), h)
    | Raise e => (Raise e, h)
    end.
Proof.
  unfold SimpleVectorIndexer__unpack_index, bind, lift.
  by destruct (Table.Vector _ _).
Qed.

(** No call of the scalar [_unpack_index] returns. *)
Lemma SimpleVectorIndexer__unpack_index_raises self (fl : Flags) i h :
  ∃ e, SimpleVectorIndexer__unpack_index self fl i h = (Raise e, h).
Proof.
  rewrite SimpleVectorIndexer__unpack_index_eq.
  destruct (Table.Vector _ _); eauto.
Qed.

(** C1 (the code departs from it).  On a scalar view [_unpack_index]
    resolves the vector's data address and then looks up the global name
    [offset], which is not bound: whenever the address resolves, the call
    raises [NameError], for every index, and the table's [Get] is never
    reached. *)
Theorem SimpleVectorIndexer_unpack_index_raises_NameError
    b (fl : Flags) i h :
  _unpack_index {| base := b; derived := SimpleVectorIndexer_obj fl |} i h
  = match Table.Vector (_table b) (_offset b) with
    | Ok _ => (Raise (NameError "name 'offset' is not defined"), h)
    | Raise e => (Raise e, h)
    end.
Proof. apply SimpleVectorIndexer__unpack_index_eq. Qed.

Lemma StructVectorIndexer__unpack_index_eq self (c : struct_class) i h :
  StructVectorIndexer__unpack_index self c i h
  = match Table.Vector (_table self) (_offset self) with
    | Ok v =>
        (Ok (VStruct c (fresh (dom h))),
         <[fresh (dom h) :=
             {| so_class := c;
                so_tab := Some (Table.Bytes (_table self),
                                v + i * _stride self) |}]> h)
    | Raise e => (Raise e, h)
    end.
Proof.
  unfold StructVectorIndexer__unpack_index, bind, lift.
  destruct (Table.Vector _ _) as [v | e]; [| done].
  unfold struct_new, struct_Init, ret, heap in *. cbv zeta.
  rewrite lookup_insert_eq. cbn. by rewrite insert_insert_eq.
Qed.

Lemma StringVectorIndexer__unpack_index_eq self i h :
  StringVectorIndexer__unpack_index self i h
  = match Table.Vector (_table self) (_offset self) with
    | Ok v => (Table.String (_table self) (v + i * _stride self), h)
    | Raise e => (Raise e, h)
    end.
Proof.
  unfold StringVectorIndexer__unpack_index, bind, lift.
  by destruct (Table.Vector _ _).
Qed.

Lemma fresh_unallocated h : h !! fresh (dom h) = None.
Proof. apply not_elem_of_dom, is_fresh. Qed.

(** ** Indexed access *)

Lemma getitem_in_range self (index : value) i h :
  isinstance_int index = Some i →
  0 ≤ i < _length self →
  VectorIndexer___getitem__ self index h = _unpack_index self i h.
Proof.
  intros Hi Hr. unfold VectorIndexer___getitem__. rewrite Hi.
  destruct (Z.ltb_spec i 0); [lia |].
  destruct (Z.geb_spec i (_length self)); [lia |]. reflexivity.
Qed.

(** C8.  On a struct view, for an index within bounds and a table that
    resolves the vector's data address to [v], [_unpack_index] (and so
    indexed access) returns a reference to a struct projection that was
    not allocated before, of the stored struct class, anchored at
    [v + i * stride] in the buffer object of the view's table itself;
    nothing else in the heap changes. *)
Theorem StructVectorIndexer_unpack_index_anchored
    b (c : struct_class) i h (v : Z) :
  0 ≤ i < _length b →
  Table.Vector (_table b) (_offset b) = Ok v →
  let self := {| base := b; derived := StructVectorIndexer_obj c |} in
  let r := fresh (dom h) in
  let item :=
    {| so_class := c;
       so_tab := Some (Table.Bytes (_table b), v + i * _stride b) |} in
  h !! r = None
  ∧ _unpack_index self i h = (Ok (VStruct c r), <[r := item]> h)
  ∧ VectorIndexer___getitem__ self (VInt i) h
    = (Ok (VStruct c r), <[r := item]> h)
  ∧ (∀ r', r' ≠ r → <[r := item]> h !! r' = h !! r').
Proof.
  intros Hi Hv self r item.
  assert (_unpack_index self i h = (Ok (VStruct c r), <[r := item]> h))
    as Hu.
  { change (_unpack_index self i h)
      with (StructVectorIndexer__unpack_index self c i h).
    rewrite StructVectorIndexer__unpack_index_eq.
    subst self r item. cbn. by rewrite Hv. }
  split; [apply fresh_unallocated |].
  split; [exact Hu |].
  split.
  - by rewrite (getitem_in_range self (VInt i) i).
  - intros r' Hr'. by apply lookup_insert_ne.
Qed.

(** C3.  An integer key (a boolean included) below [0] or at least the
    length makes indexed access raise [IndexError]; no element is
    unpacked and the heap is untouched.  On an empty vector this holds
    for the key [0]. *)
Theorem getitem_out_of_range self (index : value) i h :
  isinstance_int index = Some i →
  i < 0 ∨ _length self ≤ i →
  VectorIndexer___getitem__ self index h
  = (Raise (IndexError ("vector index " +:+ pretty i +:+ " out of range")),
     h).
Proof.
  intros Hi Hr. unfold VectorIndexer___getitem__. rewrite Hi.
  destruct (Z.ltb_spec i 0); [done |].
  destruct (Z.geb_spec i (_length self)); [done | lia].
Qed.

Lemma getitem_empty self h :
  _length self = 0 →
  VectorIndexer___getitem__ self (VInt 0) h
  = (Raise (IndexError "vector index 0 out of range"), h).
Proof.
  intros Hl. unfold VectorIndexer___getitem__. cbn. rewrite Hl. reflexivity.
Qed.

(** C9.  A key that is neither an integer nor a slice makes indexed
    access raise [TypeError], naming the key's type. *)
Theorem getitem_invalid_key_TypeError self (index : value) h :
  isinstance_int index = None →
  isinstance_slice index = false →
  VectorIndexer___getitem__ self index h
  = (Raise (TypeError ("vector indices must be integers or slices, not "
                       +:+ type_name index)), h).
Proof.
  intros Hi Hs. unfold VectorIndexer___getitem__. by rewrite Hi, Hs.
Qed.

(** C10.  A boolean key takes the integer branch: on a view of at least
    two elements, [True] is served as index [1] and [False] as index [0],
    by the same unpacking step as the integer key. *)
Theorem getitem_bool_key self h :
  2 ≤ _length self →
  VectorIndexer___getitem__ self (VBool true) h = _unpack_index self 1 h
  ∧ VectorIndexer___getitem__ self (VBool true) h
    = VectorIndexer___getitem__ self (VInt 1) h
  ∧ VectorIndexer___getitem__ self (VBool false) h = _unpack_index self 0 h
  ∧ VectorIndexer___getitem__ self (VBool false) h
    = VectorIndexer___getitem__ self (VInt 0) h.
Proof.
  intros Hl.
  rewrite (getitem_in_range self (VBool true) 1) by (done || lia).
  rewrite (getitem_in_range self (VInt 1) 1) by (done || lia).
  rewrite (getitem_in_range self (VBool false) 0) by (done || lia).
  rewrite (getitem_in_range self (VInt 0) 0) by (done || lia).
  done.
Qed.

(** Whatever the length, a boolean key and its integer value are served
    alike. *)
Lemma getitem_bool_as_int self (k : bool) h :
  VectorIndexer___getitem__ self (VBool k) h
  = VectorIndexer___getitem__ self (VInt (Z.b2z k)) h.
Proof. reflexivity. Qed.

(** ** Slices *)

(** What the base implementation does with the indices [compat.range_func]
    hands back: one [_unpack_index] per index, in order. *)
Lemma VectorIndexer__unpack_slice_index_eq
    self (start stop step : value) h (a j k : Z) (r : list Z) :
  slice_indices start stop step (_length self) = Ok (a, j, k) →
  compat.range_func [VTuple [VInt a; VInt j; VInt k]] = Ok r →
  VectorIndexer__unpack_slice_index self (VSlice start stop step) h
  = match comprehension (_unpack_index self) r h with
    | (Ok l, h') => (Ok (VList l), h')
    | (Raise e, h') => (Raise e, h')
    end.
Proof.
  intros Hs Hr. unfold VectorIndexer__unpack_slice_index, bind, lift.
  rewrite Hs. cbn. rewrite Hr.
  by destruct (comprehension _ _ _) as [[l | e] h'].
Qed.

(** The base implementation returns a list or raises. *)
Lemma VectorIndexer__unpack_slice_index_not_None self (s : value) h h' :
  VectorIndexer__unpack_slice_index self s h ≠ (Ok VNone, h').
Proof.
  unfold VectorIndexer__unpack_slice_index.
  destruct s as [| | | | | | | start stop step | | |]; try done.
  unfold bind, lift.
  destruct (slice_indices _ _ _ _) as [[[a j] k] | e]; [| done].
  destruct (compat.range_func _) as [r | e]; [| done].
  by destruct (comprehension _ _ _) as [[l | e] h1].
Qed.

(** C5 (the code departs from it).  On a scalar view the slice method is
    the override whose body is [pass]: for every argument it returns
    [None] and unpacks nothing, which the base implementation never
    does. *)
Theorem SimpleVectorIndexer_unpack_slice_index_returns_None
    b (fl : Flags) (s : value) h :
  let self := {| base := b; derived := SimpleVectorIndexer_obj fl |} in
  _unpack_slice_index self s h = (Ok VNone, h)
  ∧ ∀ h', VectorIndexer__unpack_slice_index self s h ≠ (Ok VNone, h').
Proof.
  split; [reflexivity |].
  intros h'. apply VectorIndexer__unpack_slice_index_not_None.
Qed.

(** C6 (the code departs from it).  Slicing a scalar view with its full
    bounds returns [None], not the list of its elements. *)
Theorem SimpleVectorIndexer_full_slice_returns_None b (fl : Flags) h :
  VectorIndexer___getitem__
    {| base := b; derived := SimpleVectorIndexer_obj fl |}
    (VSlice (VInt 0) (VInt (_length b)) (VInt 1)) h
  = (Ok VNone, h).
Proof. reflexivity. Qed.

(** ** The iterator *)

(** C7 (the code departs from it).  No iterator is ever created:
    [VectorIterator.__init__] assigns the view and the cursor [0] and then
    evaluates [len(vector)], where [vector] is an unbound global name, so
    it raises [NameError] for every view, the empty one included. *)
Theorem VectorIterator_init_raises_NameError (vector_Indexer : indexer) :
  VectorIterator___init__ vector_Indexer
  = Raise (NameError "name 'vector' is not defined").
Proof. reflexivity. Qed.

(** C2 (the code departs from it).  Iterating a view yields no element at
    all: obtaining the iterator raises [NameError], whatever the view's
    length. *)
Theorem iterate_raises_NameError self h :
  iterate self h = (Raise (NameError "name 'vector' is not defined"), h).
Proof. reflexivity. Qed.

(** The method [next] on an iterator state: exhausted states signal
    [StopIteration] and stay as they are; active states fetch the element
    under the cursor and move the cursor by one. *)
Lemma VectorIterator_next_exhausted (it : VectorIterator.t) h :
  VectorIterator._length it ≤ VectorIterator._next_index it →
  VectorIterator_next it h = (Raise StopIteration, h).
Proof.
  intros Hx. unfold VectorIterator_next.
  by destruct (Z.geb_spec (VectorIterator._next_index it)
                 (VectorIterator._length it)); [| lia].
Qed.

Lemma VectorIterator_next_active (it : VectorIterator.t) h :
  VectorIterator._next_index it < VectorIterator._length it →
  VectorIterator_next it h
  = match VectorIndexer___getitem__ (VectorIterator._vec it)
            (VInt (VectorIterator._next_index it)) h with
    | (Ok x, h') =>
        (Ok (x, {| VectorIterator._vec := VectorIterator._vec it;
                   VectorIterator._next_index :=
                     VectorIterator._next_index it + 1;
                   VectorIterator._length := VectorIterator._length it |}),
         h')
    | (Raise e, h') => (Raise e, h')
    end.
Proof.
  intros Ha. unfold VectorIterator_next.
  destruct (Z.geb_spec (VectorIterator._next_index it)
              (VectorIterator._length it)); [lia |].
  unfold bind. by destruct (VectorIndexer___getitem__ _ _ _) as [[x | e] h'].
Qed.

Lemma VectorIterator_next_Ok (it it' : VectorIterator.t) (x : value) h h' :
  VectorIterator_next it h = (Ok (x, it'), h') →
  VectorIterator._next_index it < VectorIterator._length it
  ∧ VectorIterator._next_index it' = VectorIterator._next_index it + 1
  ∧ VectorIterator._length it' = VectorIterator._length it
  ∧ VectorIterator._vec it' = VectorIterator._vec it.
Proof.
  intros Hn.
  destruct (Z.lt_ge_cases (VectorIterator._next_index it)
              (VectorIterator._length it)) as [Ha | Hx].
  - rewrite VectorIterator_next_active in Hn by done.
    destruct (VectorIndexer___getitem__ _ _ _) as [[y | e] h1]; [| done].
    by injection Hn as _ <- _.
  - by rewrite VectorIterator_next_exhausted in Hn.
Qed.

Lemma drain_exhausted (n : nat) (it : VectorIterator.t) h :
  VectorIterator._length it ≤ VectorIterator._next_index it →
  drain n it h = (Ok [], h).
Proof.
  intros Hx. destruct n; cbn; [done |].
  by rewrite VectorIterator_next_exhausted.
Qed.

(** The bound [S (remaining it)] is enough: a larger one gives the same
    traversal. *)
Lemma drain_enough (n : nat) (it : VectorIterator.t) h :
  (remaining it < n)%nat → drain (S n) it h = drain n it h.
Proof.
  revert it h. induction n as [| n IH]; intros it h Hn; [lia |].
  cbn [drain].
  destruct (VectorIterator_next it h) as [[[x it'] | e] h'] eqn:Hnext;
    [| done].
  apply VectorIterator_next_Ok in Hnext as (Ha & Hi & Hl & _).
  assert (remaining it' < n)%nat as Hr.
  { unfold remaining in *. rewrite Hi, Hl. lia. }
  specialize (IH it' h' Hr). cbn [drain] in IH. by rewrite IH.
Qed.

(** An iterator state as [__init__] means to leave it, or any later state
    of it, over a struct view whose table resolves the data address: the
    traversal returns exactly the [remaining] items. *)
Lemma drain_struct_view b (c : struct_class) (v : Z) (n : nat) :
  Table.Vector (_table b) (_offset b) = Ok v →
  ∀ (it : VectorIterator.t) h,
    VectorIterator._vec it
      = {| base := b; derived := StructVectorIndexer_obj c |} →
    0 ≤ VectorIterator._next_index it →
    VectorIterator._length it = _length b →
    remaining it = n →
    ∃ xs h', drain (S n) it h = (Ok xs, h') ∧ length xs = n.
Proof.
  intros Hv. induction n as [| n IH]; intros it h Hvec Hpos Hlen Hrem.
  - exists [], h. split; [| done].
    apply drain_exhausted. unfold remaining in Hrem. lia.
  - assert (VectorIterator._next_index it < VectorIterator._length it) as Ha
      by (unfold remaining in Hrem; lia).
    pose proof (VectorIterator_next_active it h Ha) as Hnext.
    rewrite Hvec in Hnext.
    rewrite (getitem_in_range _ _ (VectorIterator._next_index it)) in Hnext
      by (done || cbn; lia).
    change (_unpack_index _ ?i h)
      with (StructVectorIndexer__unpack_index
              {| base := b; derived := StructVectorIndexer_obj c |} c i h)
      in Hnext.
    rewrite StructVectorIndexer__unpack_index_eq in Hnext. cbn in Hnext.
    rewrite Hv in Hnext.
    match type of Hnext with _ = (Ok (_, ?it1), ?h1) =>
      destruct (IH it1 h1) as (ys & h2 & Hd & Hl)
    end; [done | cbn; lia | done | unfold remaining in *; cbn; lia |].
    eexists (_ :: ys), h2. split; [| by rewrite <- Hl].
    change (drain (S (S n)) it h) with
      (match VectorIterator_next it h with
       | (Ok (x, it'), h') =>
           match drain (S n) it' h' with
           | (Ok xs, h'') => (Ok (x :: xs), h'')
           | (Raise e, h'') => (Raise e, h'')
           end
       | (Raise StopIteration, h') => (Ok [], h')
       | (Raise e, h') => (Raise e, h')
       end).
    rewrite Hnext, Hd. reflexivity.
Qed.

(** A traversal takes no more items than the iterator has left. *)
Lemma drain_length (n : nat) (it : VectorIterator.t) h h' (xs : list value) :
  drain n it h = (Ok xs, h') → (length xs ≤ remaining it)%nat.
Proof.
  revert it h xs. induction n as [| n IH]; intros it h xs; cbn [drain].
  - intros [= <- _]. cbn. lia.
  - destruct (VectorIterator_next it h) as [[[x it'] | e] h1] eqn:Hnext.
    + apply VectorIterator_next_Ok in Hnext as (Ha & Hi & Hl & _).
      destruct (drain n it' h1) as [[ys | e] h2] eqn:Hd; [| done].
      intros [= <- <-]. apply IH in Hd. unfold remaining in *.
      rewrite Hi, Hl in Hd. cbn. lia.
    + destruct e; try done. intros [= <- _]. cbn. lia.
Qed.

End Properties.

(** With [compat.range_func] bound to the builtin [range], the base slice
    implementation raises [TypeError] on every slice that [slice.indices]
    accepts: the tuple of indices arrives as the single argument. *)
Lemma VectorIndexer__unpack_slice_index_builtin_range `{!Table.methods}
    (self : indexer) (start stop step : value) (h : heap) (t : Z * Z * Z) :
  slice_indices start stop step (_length self) = Ok t →
  VectorIndexer__unpack_slice_index (H0 := Sample.compat_range)
    self (VSlice start stop step) h
  = (Raise (TypeError "'tuple' object cannot be interpreted as an integer"),
     h).
Proof.
  intros Hs. unfold VectorIndexer__unpack_slice_index, bind, lift.
  rewrite Hs. by destruct t as [[a j] k].
Qed.

(** * Scenarios over the sample tables *)

Section Scenarios.

#[local] Existing Instance Sample.accessor.
#[local] Existing Instance Sample.compat_range.

Lemma ints_constructed :
  new_SimpleVectorIndexer Sample.ints_table 0 Sample.Int32Flags
  = Ok Sample.ints.
Proof. reflexivity. Qed.

Lemma empty_constructed :
  new_SimpleVectorIndexer Sample.empty_table 0 Sample.Int32Flags
  = Ok Sample.empty.
Proof. reflexivity. Qed.

Lemma structs_constructed :
  new_StructVectorIndexer Sample.structs_table 0 8 "Vec2"
  = Ok Sample.structs.
Proof. reflexivity. Qed.

(** The scalar vector [10, 20, 30]: the element at index 2 sits at address
    [8 + 2 * 4], where the table reads 30; indexed access raises
    [NameError] instead. *)
Example ints_getitem :
  Table.Vector Sample.ints_table 0 = Ok 8
  ∧ Table.Get Sample.ints_table Sample.Int32Flags (VInt (8 + 2 * 4))
    = Ok (VInt 30)
  ∧ VectorIndexer___getitem__ Sample.ints (VInt 2) ∅
    = (Raise (NameError "name 'offset' is not defined"), ∅).
Proof. repeat split. Qed.

Example ints_getitem_out_of_range :
  VectorIndexer___getitem__ Sample.ints (VInt 3) ∅
  = (Raise (IndexError "vector index 3 out of range"), ∅).
Proof. reflexivity. Qed.

Example ints_iterate :
  VectorIndexer___len__ Sample.ints = 3
  ∧ iterate Sample.ints ∅
    = (Raise (NameError "name 'vector' is not defined"), ∅).
Proof. split; reflexivity. Qed.

Example empty_iter :
  VectorIndexer___iter__ Sample.empty
  = Raise (NameError "name 'vector' is not defined").
Proof. reflexivity. Qed.

Example strings_constructor :
  Table.VectorLen Sample.strings_table 0 = Ok 2
  ∧ Table.String Sample.strings_table 8 = Ok (VStr "ab")
  ∧ Table.String Sample.strings_table 12 = Ok (VStr "xyz")
  ∧ new_StringVectorIndexer Sample.strings_table 0 4
    = Raise (TypeError
        "super(type, obj): obj must be an instance or subtype of type").
Proof. repeat split. Qed.

(** Slicing the scalar vector returns [None]; the base implementation,
    applied to the same view and an empty slice, returns the empty list
    for a [range_func] that yields no index. *)
Example ints_slice :
  VectorIndexer___getitem__ Sample.ints (VSlice (VInt 0) (VInt 3) (VInt 1)) ∅
  = (Ok VNone, ∅).
Proof. reflexivity. Qed.

Example ints_slice_tail :
  VectorIndexer___getitem__ Sample.ints (VSlice (VInt 1) VNone VNone) ∅
  = (Ok VNone, ∅).
Proof. reflexivity. Qed.

(** Slicing the struct vector reaches the base implementation, which
    passes the tuple [(0, 2, 1)] to the builtin [range]. *)
Example structs_slice :
  VectorIndexer___getitem__ Sample.structs
    (VSlice (VInt 0) (VInt 2) (VInt 1)) ∅
  = (Raise (TypeError "'tuple' object cannot be interpreted as an integer"),
     ∅).
Proof. reflexivity. Qed.

(** Keys reached through builtin names: [True] is served as index 1, the
    class [int] is refused as a key of type [type]. *)
Example structs_getitem_True :
  VectorIndexer___getitem__ Sample.structs (VBuiltin "True") ∅
  = VectorIndexer___getitem__ Sample.structs (VInt 1) ∅.
Proof. reflexivity. Qed.

Example ints_getitem_class :
  VectorIndexer___getitem__ Sample.ints (VBuiltin "int") ∅
  = (Raise (TypeError "vector indices must be integers or slices, not type"),
     ∅).
Proof. reflexivity. Qed.

Example ints_getitem_float :
  VectorIndexer___getitem__ Sample.ints (VFloat 3 (-1)) ∅
  = (Raise (TypeError "vector indices must be integers or slices, not float"),
     ∅).
Proof. reflexivity. Qed.

(** ** Instances of the theorems above *)

Lemma StructVectorIndexer_unpack_index_anchored_witness :
  0 ≤ 1 < _length Sample.structs
  ∧ Table.Vector (_table Sample.structs) (_offset Sample.structs) = Ok 8
  ∧ VectorIndexer___getitem__ Sample.structs (VInt 1) ∅
    = (Ok (VStruct "Vec2" 1%positive),
       <[1%positive :=
           {| so_class := "Vec2";
              so_tab := Some (Table.Bytes Sample.structs_table, 16) |}]> ∅).
Proof.
  assert (0 ≤ 1 < _length Sample.structs) as Hi by (simpl; lia).
  assert (Table.Vector (_table Sample.structs) (_offset Sample.structs)
          = Ok 8) as Hv by reflexivity.
  split; [exact Hi |]. split; [exact Hv |].
  exact (proj1 (proj2 (proj2
    (StructVectorIndexer_unpack_index_anchored
       Sample.structs "Vec2" 1 ∅ 8 Hi Hv)))).
Defined.

Lemma getitem_out_of_range_witness :
  isinstance_int (VInt 0) = Some 0
  ∧ (0 < 0 ∨ _length Sample.empty ≤ 0)
  ∧ VectorIndexer___getitem__ Sample.empty (VInt 0) ∅
    = (Raise (IndexError ("vector index " +:+ pretty 0 +:+ " out of range")),
       ∅).
Proof.
  assert (0 < 0 ∨ _length Sample.empty ≤ 0) as Hr by (right; simpl; lia).
  split; [reflexivity |]. split; [exact Hr |].
  exact (getitem_out_of_range Sample.empty (VInt 0) 0 ∅ eq_refl Hr).
Defined.

Lemma getitem_invalid_key_TypeError_witness :
  isinstance_int (VStr "first") = None
  ∧ isinstance_slice (VStr "first") = false
  ∧ VectorIndexer___getitem__ Sample.ints (VStr "first") ∅
    = (Raise (TypeError ("vector indices must be integers or slices, not "
                         +:+ type_name (VStr "first"))), ∅).
Proof.
  split; [reflexivity |]. split; [reflexivity |].
  exact (getitem_invalid_key_TypeError
           Sample.ints (VStr "first") ∅ eq_refl eq_refl).
Defined.

Lemma getitem_bool_key_witness :
  2 ≤ _length Sample.structs
  ∧ VectorIndexer___getitem__ Sample.structs (VBool true) ∅
    = VectorIndexer___getitem__ Sample.structs (VInt 1) ∅
  ∧ VectorIndexer___getitem__ Sample.structs (VBool false) ∅
    = VectorIndexer___getitem__ Sample.structs (VInt 0) ∅.
Proof.
  assert (2 ≤ _length Sample.structs) as Hl by (simpl; lia).
  split; [exact Hl |].
  destruct (getitem_bool_key Sample.structs ∅ Hl) as (_ & H1 & _ & H0).
  split; [exact H1 | exact H0].
Defined.

End Scenarios.

(** * Further properties *)

Section Construction.

Context `{!Table.methods}.

Implicit Types (self : indexer) (b : slots) (h : heap) (i : Z).

(** X1.  The three class calls that initialise through the base
    constructor succeed exactly when the table's [VectorLen] does: the view
    stores the table, the offset and the stride as given (for a scalar view
    the stride is the descriptor's byte width), its [__len__] is the value
    [VectorLen] returned, and an exception of [VectorLen] is the exception
    of the call. *)
Theorem constructors_read_length
    (table : Table.t) (offset stride : Z) (c : struct_class) (fl : Flags) :
  let view n stride d :=
    {| base := {| _table := table; _offset := offset; _length := n;
                  _stride := stride |};
       derived := d |} in
  new_VectorIndexer table offset stride
  = match Table.VectorLen table offset with
    | Ok n => Ok (view n stride VectorIndexer_obj)
    | Raise e => Raise e
    end
  ∧ new_StructVectorIndexer table offset stride c
    = match Table.VectorLen table offset with
      | Ok n => Ok (view n stride (StructVectorIndexer_obj c))
      | Raise e => Raise e
      end
  ∧ new_SimpleVectorIndexer table offset fl
    = match Table.VectorLen table offset with
      | Ok n => Ok (view n (bytewidth fl) (SimpleVectorIndexer_obj fl))
      | Raise e => Raise e
      end
  ∧ ∀ n stride d, VectorIndexer___len__ (view n stride d) = n.
Proof.
  intros view. repeat split.
  - unfold new_VectorIndexer, VectorIndexer___init__. cbn.
    by destruct (Table.VectorLen table offset).
  - rewrite new_StructVectorIndexer_eq. unfold VectorIndexer___init__. cbn.
    by destruct (Table.VectorLen table offset).
  - rewrite new_SimpleVectorIndexer_eq. unfold VectorIndexer___init__. cbn.
    by destruct (Table.VectorLen table offset).
Qed.

(** X2.  Every view a class call returns keeps what the constructor read:
    its length is what the table's [VectorLen] gives for the stored table
    and offset, a scalar view's stride is its descriptor's byte width, and
    it is never a string view. *)
Theorem constructed_invariant self :
  constructed self →
  Table.VectorLen (_table self) (_offset self)
  = Ok (VectorIndexer___len__ self)
  ∧ match derived self with
    | SimpleVectorIndexer_obj fl => _stride self = bytewidth fl
    | StringVectorIndexer_obj => False
    | _ => True
    end.
Proof.
  intros Hc. split; [by apply constructed_length |].
  pose proof (constructed_not_StringVectorIndexer self Hc) as Hs.
  destruct (derived self) as [| c | fl |] eqn:Hd; try done.
  destruct Hc as [(t & o & s & Hc) | [(t & o & s & c & Hc) | [(t & o & f & Hc) | (t & o & s & Hc)]]].
  - unfold new_VectorIndexer in Hc. cbn in Hc.
    destruct (VectorIndexer___init__ t o s); [| done].
    injection Hc as <-. done.
  - rewrite new_StructVectorIndexer_eq in Hc. cbn in Hc.
    destruct (VectorIndexer___init__ t o s); [| done].
    injection Hc as <-. done.
  - destruct (new_SimpleVectorIndexer_ob_type _ _ _ _ Hc) as [_ Hst].
    rewrite new_SimpleVectorIndexer_eq in Hc. cbn in Hc.
    destruct (VectorIndexer___init__ t o (bytewidth f)); [| done].
    injection Hc as <-. cbn in Hd. injection Hd as ->. exact Hst.
  - discriminate Hc.
Qed.

End Construction.

Section Access.

Context `{!Table.methods} `{!compat.t}.

Implicit Types (self : indexer) (b : slots) (h : heap) (i : Z).

(** X3.  The base class is abstract: on an instance of [VectorIndexer]
    itself, indexed access with an integer within bounds raises
    [NotImplementedError], without consulting the table. *)
Theorem plain_getitem_NotImplementedError b (index : value) i h :
  isinstance_int index = Some i →
  0 ≤ i < _length b →
  VectorIndexer___getitem__ {| base := b; derived := VectorIndexer_obj |}
    index h
  = (Raise NotImplementedError, h).
Proof.
  intros Hi Hr.
  by rewrite (getitem_in_range _ index i) by done.
Qed.

(** X4.  On a string view, indexed access within bounds resolves the data
    address and returns whatever the table's [String] gives at
    [address + i * stride], an exception included; an exception of
    [Vector] is passed on.  No object is allocated. *)
Theorem string_getitem b (index : value) i h :
  isinstance_int index = Some i →
  0 ≤ i < _length b →
  VectorIndexer___getitem__
    {| base := b; derived := StringVectorIndexer_obj |} index h
  = match Table.Vector (_table b) (_offset b) with
    | Ok v => (Table.String (_table b) (v + i * _stride b), h)
    | Raise e => (Raise e, h)
    end.
Proof.
  intros Hi Hr.
  rewrite (getitem_in_range _ index i) by done.
  apply StringVectorIndexer__unpack_index_eq.
Qed.

(** X5.  A struct view caches no projection: two accesses at the same index
    return two different objects, both of the stored class and both
    anchored at the same address of the same buffer object; the second
    access leaves the first object as it was. *)
Theorem struct_getitem_twice b (c : struct_class) i h (v : Z) :
  0 ≤ i < _length b →
  Table.Vector (_table b) (_offset b) = Ok v →
  let self := {| base := b; derived := StructVectorIndexer_obj c |} in
  let item :=
    {| so_class := c;
       so_tab := Some (Table.Bytes (_table b), v + i * _stride b) |} in
  ∃ r1 r2 h1 h2,
    VectorIndexer___getitem__ self (VInt i) h = (Ok (VStruct c r1), h1)
    ∧ VectorIndexer___getitem__ self (VInt i) h1 = (Ok (VStruct c r2), h2)
    ∧ r1 ≠ r2
    ∧ h2 !! r1 = Some item
    ∧ h2 !! r2 = Some item.
Proof.
  intros Hi Hv self item.
  assert (∀ h0, VectorIndexer___getitem__ self (VInt i) h0
                = (Ok (VStruct c (fresh (dom h0))),
                   <[fresh (dom h0) := item]> h0)) as Hg.
  { intros h0. rewrite (getitem_in_range self (VInt i) i) by done.
    change (_unpack_index self i h0)
      with (StructVectorIndexer__unpack_index self c i h0).
    rewrite StructVectorIndexer__unpack_index_eq.
    subst self item. cbn. by rewrite Hv. }
  unfold heap in *.
  pose (r1 := fresh (dom h)).
  pose (h1 := <[r1 := item]> h).
  pose (r2 := fresh (dom h1)).
  exists r1, r2, h1, (<[r2 := item]> h1).
  assert (h1 !! r1 = Some item) as H1 by apply lookup_insert_eq.
  assert (r2 ≠ r1) as Hne.
  { intros Heq. pose proof (fresh_unallocated h1) as Hf.
    change (h1 !! r2 = None) in Hf. rewrite Heq in Hf. congruence. }
  split; [apply Hg |]. split; [apply Hg |]. split; [done |].
  split.
  - by rewrite lookup_insert_ne.
  - apply lookup_insert_eq.
Qed.

(** X6.  A scalar view never yields an element: whatever the key, indexed
    access either raises or returns [None], and the heap stays as it
    was. *)
Theorem scalar_getitem_no_element b (fl : Flags) (index : value) h :
  let self := {| base := b; derived := SimpleVectorIndexer_obj fl |} in
  (∃ e, VectorIndexer___getitem__ self index h = (Raise e, h))
  ∨ VectorIndexer___getitem__ self index h = (Ok VNone, h).
Proof.
  intros self. unfold VectorIndexer___getitem__.
  destruct (isinstance_int index) as [i |].
  - left. destruct ((i <? 0) || (i >=? _length self)); [by eexists |].
    apply SimpleVectorIndexer__unpack_index_raises.
  - destruct (isinstance_slice index); [by right | left; by eexists].
Qed.

(** X7.  An exception of the table's [Vector] surfaces unchanged from
    indexed access within bounds on a struct, scalar or string view, and
    nothing is allocated. *)
Theorem getitem_Vector_error self (index : value) i (e : exn) h :
  derived self ≠ VectorIndexer_obj →
  isinstance_int index = Some i →
  0 ≤ i < _length self →
  Table.Vector (_table self) (_offset self) = Raise e →
  VectorIndexer___getitem__ self index h = (Raise e, h).
Proof.
  intros Hd Hi Hr Hv. rewrite (getitem_in_range _ index i) by done.
  unfold _unpack_index. destruct (derived self) as [| c | fl |]; [done | | |].
  - rewrite StructVectorIndexer__unpack_index_eq. by rewrite Hv.
  - rewrite SimpleVectorIndexer__unpack_index_eq. by rewrite Hv.
  - rewrite StringVectorIndexer__unpack_index_eq. by rewrite Hv.
Qed.

End Access.

Section Slicing.

Context `{!Table.methods} `{!compat.t}.

Implicit Types (self : indexer) (b : slots) (h : heap) (i : Z).

Lemma projection_at_weaken (c : struct_class) (buf : bytearray) (pos : Z)
    (h h1 h2 h' : heap) (x : value) :
  h ⊆ h1 → h2 ⊆ h' → projection_at c buf pos h1 h2 x →
  projection_at c buf pos h h' x.
Proof.
  unfold heap in *. intros H1 H2 (r & -> & Hn & Hs). exists r.
  split; [done |]. split.
  - by eapply lookup_weaken_None.
  - by eapply lookup_weaken.
Qed.

Lemma struct_unpack_index_Ok b (c : struct_class) (v : Z) i h :
  Table.Vector (_table b) (_offset b) = Ok v →
  let r := fresh (dom h) in
  let h' :=
    <[r := {| so_class := c;
              so_tab := Some (Table.Bytes (_table b), v + i * _stride b) |}]> h
  in
  _unpack_index {| base := b; derived := StructVectorIndexer_obj c |} i h
  = (Ok (VStruct c r), h')
  ∧ h ⊆ h'
  ∧ projection_at c (Table.Bytes (_table b)) (v + i * _stride b) h h'
      (VStruct c r).
Proof.
  intros Hv r h'. unfold heap in *.
  assert (h !! r = None) as Hf by apply fresh_unallocated.
  split.
  - change (_unpack_index ?s i h)
      with (StructVectorIndexer__unpack_index s c i h).
    rewrite StructVectorIndexer__unpack_index_eq. cbn. by rewrite Hv.
  - split; [by apply insert_subseteq |].
    exists r. split; [done |]. split; [done |]. apply lookup_insert_eq.
Qed.

(** A comprehension of [_unpack_index] over a struct view: one projection
    per index, each anchored at its own address. *)
Lemma comprehension_struct b (c : struct_class) (v : Z) (l : list Z) h :
  Table.Vector (_table b) (_offset b) = Ok v →
  ∃ xs h',
    comprehension
      (_unpack_index {| base := b; derived := StructVectorIndexer_obj c |})
      l h = (Ok xs, h')
    ∧ h ⊆ h'
    ∧ Forall2
        (λ i x, projection_at c (Table.Bytes (_table b))
                  (v + i * _stride b) h h' x) l xs.
Proof.
  intros Hv. revert h. induction l as [| i l IH]; intros h.
  - exists [], h. split; [done |]. split; [done | constructor].
  - destruct (struct_unpack_index_Ok b c v i h Hv) as (Hu & Hsub & Hp).
    destruct (IH (<[fresh (dom h) :=
                     {| so_class := c;
                        so_tab := Some (Table.Bytes (_table b),
                                        v + i * _stride b) |}]> h))
      as (xs & h' & Hc & Hsub' & Hall).
    exists (VStruct c (fresh (dom h)) :: xs), h'.
    split; [| split].
    + cbn [comprehension]. unfold bind at 1. rewrite Hu.
      unfold bind at 1. by rewrite Hc.
    + by etrans.
    + constructor.
      * eapply projection_at_weaken; [| | exact Hp];
          [reflexivity | exact Hsub'].
      * eapply Forall2_impl; [exact Hall |].
        intros j x Hx.
        eapply projection_at_weaken; [| | exact Hx];
          [exact Hsub | reflexivity].
Qed.

Lemma unpack_index_heap self i h (r : result value) h' :
  _unpack_index self i h = (r, h') → h ⊆ h'.
Proof.
  unfold heap in *. unfold _unpack_index.
  destruct (derived self) as [| c | fl |].
  - by intros [= _ <-].
  - rewrite StructVectorIndexer__unpack_index_eq.
    destruct (Table.Vector _ _); intros [= _ <-]; [| done].
    apply insert_subseteq, fresh_unallocated.
  - rewrite SimpleVectorIndexer__unpack_index_eq.
    by destruct (Table.Vector _ _); intros [= _ <-].
  - rewrite StringVectorIndexer__unpack_index_eq.
    by destruct (Table.Vector _ _); intros [= _ <-].
Qed.

Lemma comprehension_heap {A B} (f : A → M B) (l : list A) h
    (r : result (list B)) h' :
  (∀ a h0 r0 h1, f a h0 = (r0, h1) → h0 ⊆ h1) →
  comprehension f l h = (r, h') → h ⊆ h'.
Proof.
  intros Hf. revert h r. induction l as [| a l IH]; intros h r; cbn.
  - by intros [= _ <-].
  - unfold bind at 1. destruct (f a h) as [[x | e] h1] eqn:Hfa.
    + unfold bind at 1.
      destruct (comprehension f l h1) as [[xs | e] h2] eqn:Hl.
      * intros [= _ <-]. etrans; [by eapply Hf | by eapply IH].
      * intros [= _ <-]. etrans; [by eapply Hf | by eapply IH].
    + intros [= _ <-]. by eapply Hf.
Qed.

Lemma getitem_heap self (index : value) h (r : result value) h' :
  VectorIndexer___getitem__ self index h = (r, h') → h ⊆ h'.
Proof.
  unfold VectorIndexer___getitem__.
  destruct (isinstance_int index) as [i |].
  - destruct ((i <? 0) || (i >=? _length self)).
    + by intros [= _ <-].
    + apply unpack_index_heap.
  - destruct (isinstance_slice index); [| by intros [= _ <-]].
    unfold _unpack_slice_index.
    assert (VectorIndexer__unpack_slice_index self index h = (r, h') →
            h ⊆ h') as Hbase.
    { unfold VectorIndexer__unpack_slice_index.
      destruct index as [| | | | | | | start stop step | | |];
        try by intros [= _ <-].
      unfold bind at 1, lift.
      destruct (slice_indices _ _ _ _) as [[[a j] k] | e];
        [| by intros [= _ <-]].
      unfold bind at 1.
      destruct (compat.range_func _) as [l | e]; [| by intros [= _ <-]].
      unfold bind at 1.
      destruct (comprehension _ l h) as [[xs | e] h1] eqn:Hc;
        intros [= _ <-];
        (eapply comprehension_heap; [| exact Hc]);
        intros ? ? ? ?; apply unpack_index_heap. }
    destruct (derived self); try exact Hbase.
    by intros [= _ <-].
Qed.

(** X8.  Indexed access, by integer or by slice, never alters or removes an
    object allocated before: whatever it returns or raises, the heap it
    leaves extends the heap it found. *)
Theorem getitem_heap_extends self (index : value) h :
  h ⊆ (VectorIndexer___getitem__ self index h).2.
Proof.
  destruct (VectorIndexer___getitem__ self index h) as [r h'] eqn:Hg.
  by eapply getitem_heap.
Qed.

(** ** Slices *)

Lemma getitem_slice_base self (start stop step : value) h :
  (∀ fl, derived self ≠ SimpleVectorIndexer_obj fl) →
  VectorIndexer___getitem__ self (VSlice start stop step) h
  = VectorIndexer__unpack_slice_index self (VSlice start stop step) h.
Proof.
  intros Hd. unfold VectorIndexer___getitem__, _unpack_slice_index. cbn.
  destruct (derived self) as [| c | fl |]; try done.
  by destruct (Hd fl).
Qed.

(** X9.  The base slice implementation unpacks exactly the indices
    [compat.range_func] hands back, in their order, and checks none of them
    against the bounds: on a struct view whose table resolves the data
    address to [v], the slice is a list with one new projection per index
    [i], anchored at [v + i * stride] in the table's buffer object. *)
Theorem struct_slice_elementwise b (c : struct_class)
    (start stop step : value) h (v a j k : Z) (l : list Z) :
  Table.Vector (_table b) (_offset b) = Ok v →
  slice_indices start stop step (_length b) = Ok (a, j, k) →
  compat.range_func [VTuple [VInt a; VInt j; VInt k]] = Ok l →
  ∃ xs h',
    VectorIndexer___getitem__
      {| base := b; derived := StructVectorIndexer_obj c |}
      (VSlice start stop step) h
    = (Ok (VList xs), h')
    ∧ Forall2
        (λ i x, projection_at c (Table.Bytes (_table b))
                  (v + i * _stride b) h h' x) l xs.
Proof.
  intros Hv Hs Hr.
  destruct (comprehension_struct b c v l h Hv) as (xs & h' & Hc & _ & Hall).
  exists xs, h'. split; [| exact Hall].
  rewrite getitem_slice_base by done.
  rewrite (VectorIndexer__unpack_slice_index_eq _ _ _ _ _ a j k l) by done.
  by rewrite Hc.
Qed.

(** X10.  A slice with step zero on a view other than a scalar one raises
    [ValueError], whatever the bounds: [slice.indices] fails before
    [compat.range_func] is called and before anything is unpacked. *)
Theorem slice_zero_step_ValueError self (start stop step : value) h :
  (∀ fl, derived self ≠ SimpleVectorIndexer_obj fl) →
  0 ≤ _length self →
  isinstance_int step = Some 0 →
  VectorIndexer___getitem__ self (VSlice start stop step) h
  = (Raise (ValueError "slice step cannot be zero"), h).
Proof.
  intros Hd Hl Hstep. rewrite getitem_slice_base by done.
  unfold VectorIndexer__unpack_slice_index, bind, lift, slice_indices.
  destruct (Z.ltb_spec (_length self) 0) as [? | _]; [lia |].
  assert (slice_bound step = Ok (Some 0)) as ->.
  { unfold slice_bound. rewrite Hstep.
    unfold isinstance_int in Hstep. by destruct (canonical step). }
  reflexivity.
Qed.

End Slicing.

(** X11.  With [compat.range_func] bound to the builtin [range], slicing a
    view other than a scalar one raises [TypeError] for every slice that
    [slice.indices] accepts, and unpacks nothing: the tuple of indices is
    the single argument [range] receives. *)
Theorem slice_builtin_range_TypeError `{!Table.methods}
    (self : indexer) (start stop step : value) (h : heap) (t : Z * Z * Z) :
  (∀ fl, derived self ≠ SimpleVectorIndexer_obj fl) →
  slice_indices start stop step (_length self) = Ok t →
  VectorIndexer___getitem__ (H0 := Sample.compat_range)
    self (VSlice start stop step) h
  = (Raise (TypeError "'tuple' object cannot be interpreted as an integer"),
     h).
Proof.
  intros Hd Hs. rewrite getitem_slice_base by done.
  by eapply VectorIndexer__unpack_slice_index_builtin_range.
Qed.

Section Iteration.

Context `{!Table.methods} `{!compat.t}.

Implicit Types (self : indexer) (b : slots) (h : heap) (i : Z).

(** X12.  [next] returns an item only from an active state; the item is
    what indexed access on the wrapped view gives at the cursor, the cursor
    moves by exactly one and stays within the length, and the view and the
    length snapshot are kept. *)
Theorem next_advances_by_one (it it' : VectorIterator.t) (x : value) h h' :
  VectorIterator_next it h = (Ok (x, it'), h') →
  VectorIterator._next_index it < VectorIterator._length it
  ∧ VectorIndexer___getitem__ (VectorIterator._vec it)
      (VInt (VectorIterator._next_index it)) h = (Ok x, h')
  ∧ VectorIterator._next_index it' = VectorIterator._next_index it + 1
  ∧ VectorIterator._next_index it' ≤ VectorIterator._length it'
  ∧ VectorIterator._length it' = VectorIterator._length it
  ∧ VectorIterator._vec it' = VectorIterator._vec it.
Proof.
  intros Hn.
  destruct (VectorIterator_next_Ok _ _ _ _ _ Hn) as (Ha & Hi & Hl & Hv).
  rewrite VectorIterator_next_active in Hn by done.
  destruct (VectorIndexer___getitem__ _ _ _) as [[y | e] h1]; [| done].
  injection Hn as -> _ ->.
  repeat split; try done. lia.
Qed.

(** X13.  When indexed access on the wrapped view raises, [next] raises the
    same exception; an exhausted iterator raises [StopIteration] without
    touching the view.  So [next] raises [StopIteration] only when it is
    exhausted or when the view's access raised it. *)
Theorem next_raises (it : VectorIterator.t) (e : exn) h h' :
  VectorIterator_next it h = (Raise e, h') →
  (VectorIterator._length it ≤ VectorIterator._next_index it
   ∧ e = StopIteration ∧ h' = h)
  ∨ (VectorIterator._next_index it < VectorIterator._length it
     ∧ VectorIndexer___getitem__ (VectorIterator._vec it)
         (VInt (VectorIterator._next_index it)) h = (Raise e, h')).
Proof.
  intros Hn.
  destruct (Z.lt_ge_cases (VectorIterator._next_index it)
              (VectorIterator._length it)) as [Ha | Hx].
  - right. split; [done |].
    rewrite VectorIterator_next_active in Hn by done.
    destruct (VectorIndexer___getitem__ _ _ _) as [[y | e0] h1]; [done |].
    by injection Hn as -> ->.
  - left. rewrite VectorIterator_next_exhausted in Hn by done.
    by injection Hn as <- <-.
Qed.

Lemma drain_struct_items b (c : struct_class) (v : Z) (n : nat) :
  Table.Vector (_table b) (_offset b) = Ok v →
  ∀ (it : VectorIterator.t) h,
    VectorIterator._vec it
      = {| base := b; derived := StructVectorIndexer_obj c |} →
    0 ≤ VectorIterator._next_index it →
    VectorIterator._length it ≤ _length b →
    remaining it = n →
    ∃ xs h',
      drain (S n) it h = (Ok xs, h')
      ∧ h ⊆ h'
      ∧ Forall2
          (λ i x, projection_at c (Table.Bytes (_table b))
                    (v + i * _stride b) h h' x)
          (seqZ (VectorIterator._next_index it) (Z.of_nat n)) xs.
Proof.
  intros Hv. induction n as [| n IH]; intros it h Hvec Hpos Hlen Hrem.
  - exists [], h. split; [| split; [done | constructor]].
    apply drain_exhausted. unfold remaining in Hrem. lia.
  - assert (VectorIterator._next_index it < VectorIterator._length it) as Ha
      by (unfold remaining in Hrem; lia).
    pose proof (VectorIterator_next_active it h Ha) as Hnext.
    rewrite Hvec in Hnext.
    rewrite (getitem_in_range _ _ (VectorIterator._next_index it)) in Hnext
      by (done || cbn; lia).
    destruct (struct_unpack_index_Ok b c v (VectorIterator._next_index it)
                h Hv) as (Hu & Hsub & Hp).
    rewrite Hu in Hnext.
    match type of Hnext with _ = (Ok (_, ?it1), ?h1) =>
      destruct (IH it1 h1) as (ys & h2 & Hd & Hsub' & Hall)
    end; [done | cbn; lia | done | unfold remaining in *; cbn; lia |].
    cbn [VectorIterator._next_index] in Hall.
    eexists (_ :: ys), h2. split; [| split].
    + change (drain (S (S n)) it h) with
        (match VectorIterator_next it h with
         | (Ok (x, it'), h') =>
             match drain (S n) it' h' with
             | (Ok xs, h'') => (Ok (x :: xs), h'')
             | (Raise e, h'') => (Raise e, h'')
             end
         | (Raise StopIteration, h') => (Ok [], h')
         | (Raise e, h') => (Raise e, h')
         end).
      rewrite Hnext, Hd. reflexivity.
    + by etrans.
    + rewrite Nat2Z.inj_succ, seqZ_cons by lia.
      replace (Z.pred (Z.succ (Z.of_nat n))) with (Z.of_nat n) by lia.
      constructor.
      * eapply projection_at_weaken; [| | exact Hp];
          [reflexivity | exact Hsub'].
      * replace (Z.succ (VectorIterator._next_index it))
          with (VectorIterator._next_index it + 1) by lia.
        eapply Forall2_impl; [exact Hall |].
        intros j x Hx.
        eapply projection_at_weaken; [| | exact Hx];
          [exact Hsub | reflexivity].
Qed.

(** X14.  Advancing an iterator state over a struct view to its end, with
    the cursor at [k >= 0], a length snapshot within the view's length and
    a table that resolves the data address to [v], ends without an
    exception and yields one new projection per index from [k] up to the
    snapshot, in index order, the one for index [i] anchored at
    [v + i * stride]. *)
Theorem drain_struct_view_in_order b (c : struct_class) (v : Z)
    (it : VectorIterator.t) h :
  Table.Vector (_table b) (_offset b) = Ok v →
  VectorIterator._vec it
    = {| base := b; derived := StructVectorIndexer_obj c |} →
  0 ≤ VectorIterator._next_index it →
  VectorIterator._length it ≤ _length b →
  ∃ xs h',
    drain (S (remaining it)) it h = (Ok xs, h')
    ∧ Forall2
        (λ i x, projection_at c (Table.Bytes (_table b))
                  (v + i * _stride b) h h' x)
        (seqZ (VectorIterator._next_index it)
              (Z.of_nat (remaining it))) xs.
Proof.
  intros Hv Hvec Hpos Hlen.
  destruct (drain_struct_items b c v (remaining it) Hv it h Hvec Hpos Hlen
              eq_refl) as (xs & h' & Hd & _ & Hall).
  by exists xs, h'.
Qed.

(** X15.  Whatever the view and its table do, advancing an iterator to
    its end yields at most as many items as lie between the cursor and the
    length snapshot. *)
Theorem drain_at_most_remaining (n : nat) (it : VectorIterator.t) h :
  match drain n it h with
  | (Ok xs, _) => (length xs ≤ remaining it)%nat
  | (Raise _, _) => True
  end.
Proof.
  destruct (drain n it h) as [[xs | e] h'] eqn:Hd; [| done].
  by eapply drain_length.
Qed.

End Iteration.

(** * Instances of the further properties *)

Section MoreScenarios.

#[local] Existing Instance Sample.accessor.
#[local] Existing Instance Sample.compat_range.

Lemma constructed_invariant_witness :
  constructed Sample.ints
  ∧ Table.VectorLen (_table Sample.ints) (_offset Sample.ints)
    = Ok (VectorIndexer___len__ Sample.ints)
  ∧ _stride Sample.ints = bytewidth Sample.Int32Flags.
Proof.
  assert (constructed Sample.ints) as Hc.
  { right. right. left.
    exists Sample.ints_table, 0, Sample.Int32Flags. reflexivity. }
  split; [exact Hc |]. exact (constructed_invariant Sample.ints Hc).
Defined.

Lemma plain_getitem_NotImplementedError_witness :
  isinstance_int (VInt 1) = Some 1
  ∧ 0 ≤ 1 < _length Sample.plain
  ∧ VectorIndexer___getitem__ Sample.plain (VInt 1) ∅
    = (Raise NotImplementedError, ∅).
Proof.
  assert (0 ≤ 1 < _length Sample.plain) as Hr by (simpl; lia).
  split; [reflexivity |]. split; [exact Hr |].
  exact (plain_getitem_NotImplementedError
           Sample.plain (VInt 1) 1 ∅ eq_refl Hr).
Defined.

Lemma string_getitem_witness :
  isinstance_int (VInt 1) = Some 1
  ∧ 0 ≤ 1 < _length Sample.strings
  ∧ VectorIndexer___getitem__ Sample.strings (VInt 1) ∅
    = (Ok (VStr "xyz"), ∅).
Proof.
  assert (0 ≤ 1 < _length Sample.strings) as Hr by (simpl; lia).
  split; [reflexivity |]. split; [exact Hr |].
  exact (string_getitem Sample.strings (VInt 1) 1 ∅ eq_refl Hr).
Defined.

Lemma struct_getitem_twice_witness :
  0 ≤ 1 < _length Sample.structs
  ∧ Table.Vector (_table Sample.structs) (_offset Sample.structs) = Ok 8
  ∧ ∃ r1 r2 h1 h2,
      VectorIndexer___getitem__ Sample.structs (VInt 1) ∅
      = (Ok (VStruct "Vec2" r1), h1)
      ∧ VectorIndexer___getitem__ Sample.structs (VInt 1) h1
        = (Ok (VStruct "Vec2" r2), h2)
      ∧ r1 ≠ r2
      ∧ h2 !! r1
        = Some {| so_class := "Vec2";
                  so_tab := Some (Table.Bytes Sample.structs_table, 16) |}
      ∧ h2 !! r2
        = Some {| so_class := "Vec2";
                  so_tab := Some (Table.Bytes Sample.structs_table, 16) |}.
Proof.
  assert (0 ≤ 1 < _length Sample.structs) as Hi by (simpl; lia).
  assert (Table.Vector (_table Sample.structs) (_offset Sample.structs)
          = Ok 8) as Hv by reflexivity.
  split; [exact Hi |]. split; [exact Hv |].
  exact (struct_getitem_twice Sample.structs "Vec2" 1 ∅ 8 Hi Hv).
Defined.

Lemma getitem_Vector_error_witness :
  derived Sample.truncated ≠ VectorIndexer_obj
  ∧ isinstance_int (VInt 0) = Some 0
  ∧ 0 ≤ 0 < _length Sample.truncated
  ∧ Table.Vector (_table Sample.truncated) (_offset Sample.truncated)
    = Raise (AccessorError "buffer too small")
  ∧ VectorIndexer___getitem__ Sample.truncated (VInt 0) ∅
    = (Raise (AccessorError "buffer too small"), ∅).
Proof.
  assert (derived Sample.truncated ≠ VectorIndexer_obj) as Hd by discriminate.
  assert (0 ≤ 0 < _length Sample.truncated) as Hr by (simpl; lia).
  split; [exact Hd |]. split; [reflexivity |]. split; [exact Hr |].
  split; [reflexivity |].
  exact (getitem_Vector_error Sample.truncated (VInt 0) 0 _ ∅
           Hd eq_refl Hr eq_refl).
Defined.

Lemma struct_slice_elementwise_witness :
  Table.Vector (_table Sample.structs) (_offset Sample.structs) = Ok 8
  ∧ slice_indices VNone VNone (VInt (-1)) (_length Sample.structs)
    = Ok (1, -1, -1)
  ∧ compat.range_func (t := Sample.compat_unpacking)
      [VTuple [VInt 1; VInt (-1); VInt (-1)]] = Ok [1; 0]
  ∧ ∃ xs h',
      VectorIndexer___getitem__ (H0 := Sample.compat_unpacking)
        Sample.structs (VSlice VNone VNone (VInt (-1))) ∅
      = (Ok (VList xs), h')
      ∧ Forall2
          (λ i x, projection_at "Vec2" (Table.Bytes Sample.structs_table)
                    (8 + i * 8) ∅ h' x) [1; 0] xs.
Proof.
  split; [reflexivity |]. split; [reflexivity |]. split; [reflexivity |].
  exact (struct_slice_elementwise (H0 := Sample.compat_unpacking)
           Sample.structs "Vec2" VNone VNone (VInt (-1)) ∅ 8 1 (-1) (-1)
           [1; 0] eq_refl eq_refl eq_refl).
Defined.

Lemma slice_zero_step_ValueError_witness :
  (∀ fl, derived Sample.structs ≠ SimpleVectorIndexer_obj fl)
  ∧ 0 ≤ _length Sample.structs
  ∧ isinstance_int (VInt 0) = Some 0
  ∧ VectorIndexer___getitem__ Sample.structs
      (VSlice VNone VNone (VInt 0)) ∅
    = (Raise (ValueError "slice step cannot be zero"), ∅).
Proof.
  assert (∀ fl, derived Sample.structs ≠ SimpleVectorIndexer_obj fl) as Hd
    by (intros fl; discriminate).
  assert (0 ≤ _length Sample.structs) as Hl by (simpl; lia).
  split; [exact Hd |]. split; [exact Hl |]. split; [reflexivity |].
  exact (slice_zero_step_ValueError Sample.structs VNone VNone (VInt 0) ∅
           Hd Hl eq_refl).
Defined.

Lemma slice_builtin_range_TypeError_witness :
  (∀ fl, derived Sample.strings ≠ SimpleVectorIndexer_obj fl)
  ∧ slice_indices (VInt 1) VNone VNone (_length Sample.strings)
    = Ok (1, 2, 1)
  ∧ VectorIndexer___getitem__ Sample.strings (VSlice (VInt 1) VNone VNone) ∅
    = (Raise (TypeError "'tuple' object cannot be interpreted as an integer"),
       ∅).
Proof.
  assert (∀ fl, derived Sample.strings ≠ SimpleVectorIndexer_obj fl) as Hd
    by (intros fl; discriminate).
  split; [exact Hd |]. split; [reflexivity |].
  exact (slice_builtin_range_TypeError Sample.strings (VInt 1) VNone VNone ∅
           (1, 2, 1) Hd eq_refl).
Defined.

Lemma next_advances_by_one_witness :
  let it' :=
    {| VectorIterator._vec := Sample.structs;
       VectorIterator._next_index := 1;
       VectorIterator._length := 2 |} in
  let h' : heap :=
    <[1%positive :=
        {| so_class := "Vec2";
           so_tab := Some (Table.Bytes Sample.structs_table, 8) |}]> ∅ in
  VectorIterator_next Sample.structs_iterator ∅
  = (Ok (VStruct "Vec2" 1%positive, it'), h')
  ∧ VectorIndexer___getitem__ Sample.structs (VInt 0) ∅
    = (Ok (VStruct "Vec2" 1%positive), h')
  ∧ VectorIterator._next_index it' = 0 + 1
  ∧ VectorIterator._next_index it' ≤ VectorIterator._length it'.
Proof.
  intros it' h'.
  assert (VectorIterator_next Sample.structs_iterator ∅
          = (Ok (VStruct "Vec2" 1%positive, it'), h')) as Hn by reflexivity.
  split; [exact Hn |].
  destruct (next_advances_by_one _ _ _ _ _ Hn) as (_ & Hg & Hi & Hle & _).
  split; [exact Hg |]. split; [exact Hi | exact Hle].
Defined.

Lemma next_raises_witness :
  let it :=
    {| VectorIterator._vec := Sample.structs;
       VectorIterator._next_index := 2;
       VectorIterator._length := 2 |} in
  VectorIterator_next it ∅ = (Raise StopIteration, ∅)
  ∧ ((VectorIterator._length it ≤ VectorIterator._next_index it
      ∧ StopIteration = StopIteration ∧ (∅ : heap) = ∅)
     ∨ (VectorIterator._next_index it < VectorIterator._length it
        ∧ VectorIndexer___getitem__ (VectorIterator._vec it)
            (VInt (VectorIterator._next_index it)) ∅
          = (Raise StopIteration, ∅))).
Proof.
  intros it.
  assert (VectorIterator_next it ∅ = (Raise StopIteration, ∅)) as Hn
    by reflexivity.
  split; [exact Hn |].
  exact (next_raises it StopIteration ∅ ∅ Hn).
Defined.

Lemma drain_struct_view_in_order_witness :
  Table.Vector (_table Sample.structs) (_offset Sample.structs) = Ok 8
  ∧ 0 ≤ VectorIterator._next_index Sample.structs_iterator
  ∧ VectorIterator._length Sample.structs_iterator ≤ _length Sample.structs
  ∧ ∃ xs h',
      drain (S (remaining Sample.structs_iterator))
        Sample.structs_iterator ∅ = (Ok xs, h')
      ∧ Forall2
          (λ i x, projection_at "Vec2" (Table.Bytes Sample.structs_table)
                    (8 + i * 8) ∅ h' x)
          (seqZ 0 (Z.of_nat (remaining Sample.structs_iterator))) xs.
Proof.
  assert (0 ≤ VectorIterator._next_index Sample.structs_iterator) as Hp
    by (simpl; lia).
  assert (VectorIterator._length Sample.structs_iterator
          ≤ _length Sample.structs) as Hl by (simpl; lia).
  split; [reflexivity |]. split; [exact Hp |]. split; [exact Hl |].
  exact (drain_struct_view_in_order Sample.structs "Vec2" 8
           Sample.structs_iterator ∅ eq_refl eq_refl Hp Hl).
Defined.

End MoreScenarios.
